(** * nnfabrik.builder: resolution and composition of experiment parts

    A shallow embedding of [src/nnfabrik/builder.py] ([get_model], [get_data],
    [get_trainer], [get_all_parts]) over a small model of the Python values
    the builder handles: strings, [None], dict objects living in a shared
    store, opaque collaborator objects, [functools.partial] objects, tuples
    and [nn.Module]-like objects.

    The builder is glue code: everything it does is to resolve a name, expand
    a configuration dict into keyword arguments, call a collaborator and hand
    the result on.  The collaborators themselves (dataset functions, model
    builders, trainers, the dynamic importer) are parameters of the model,
    gathered in a [world] record; every theorem is stated for an arbitrary
    world. *)

From Stdlib Require Import ZArith List Bool Ascii String.
From stdpp Require Import base option list strings gmap.
Import ListNotations.

Local Open Scope string_scope.
Local Open Scope list_scope.

Set Warnings "-register-all".

(** ** Values and the object store *)

Definition loc := positive.

(** Python values.  A dict or module object is reached through a reference
    into the store, so that two names for one dict see each other's updates.
    Opaque objects ([VObj]) stand for whatever the collaborators hand out:
    functions, classes, dataloaders, trained results.  The only mappings of the
    model are dict objects. *)
Inductive value : Type :=
| VNone
| VBool (b : bool)
| VInt (z : Z)
| VStr (s : string)
| VTuple (items : list value)
| VRef (l : loc)
| VObj (o : string)
| VPartial (func : value) (args : list value) (keywords : list (string * value)).

(** Keyword arguments of a call, in the order they are passed. *)
Abbreviation kwargs := (list (string * value)).

(** Objects of the store: a dict with string keys (insertion ordered), or a
    module object with its named parameters. *)
Inductive hobj : Type :=
| HDict (entries : kwargs)
| HModule (params : kwargs).

Abbreviation store := (gmap loc hobj).

(** Exceptions.  [Failure] is any exception a collaborator raises on its
    own account. *)
Inductive exn : Type :=
| TypeError
| KeyError (key : string)
| AttributeError (name : string)
| ImportError (module_path : string)
| LoadError (missing unexpected : list string)
| Failure (tag : string).

Inductive outcome (A : Type) : Type :=
| Ret (a : A)
| Raise (e : exn).
Arguments Ret {A} a.
Arguments Raise {A} e.

(** What the builder does that an observer can see, in the order it happens:
    printing, asking the dynamic importer for a symbol, evaluating an
    expression that is not a plain attribute reference, subscripting,
    calling a callable, loading a state dict into a module. *)
Inductive event : Type :=
| EvPrint (v : value)
| EvImport (module_path class_name : string)
| EvEval (src : string)
| EvGetItem (container : value) (key : string)
| EvCall (callee : value) (args : list value) (kw : kwargs)
| EvLoad (net state_dict : value) (strict : bool).

Record state : Type := { heap : store; trace : list event }.

(** The three namespaces the builder imports: the packages [datasets],
    [models] and [training]. *)
Inductive namespace : Type := Datasets | Models | Training.

(** The collaborators.  Each may read and update the store and may raise.
    [w_import] is [nnfabrik.utility.nnf_helper.dynamic_import], which is not
    part of the builder; [w_attr] gives the attributes of the three imported
    packages; [w_eval] is Python's [eval] on expressions other than an
    attribute reference [name.name], given the source text and the local
    variables of the function that calls it; [w_apply], [w_getitem] and
    [w_load]
    give the behaviour of opaque objects when called, subscripted, and asked
    to load a state dict. *)
Record world : Type := {
  w_attr : namespace -> string -> option value;
  w_import : string -> string -> store -> outcome value * store;
  w_eval : string -> kwargs -> store -> outcome value * store;
  w_callable : string -> bool;
  w_apply : value -> list value -> kwargs -> store -> outcome value * store;
  w_getitem : string -> string -> store -> outcome value * store;
  w_load : string -> value -> bool -> store -> outcome value * store
}.

(** ** The state and exception monad *)

Definition M (A : Type) : Type := state -> outcome A * state.

Definition ret {A} (a : A) : M A := fun st => (Ret a, st).

Definition raise {A} (e : exn) : M A := fun st => (Raise e, st).

Definition bind {A B} (m : M A) (k : A -> M B) : M B :=
  fun st =>
    match m st with
    | (Ret a, st') => k a st'
    | (Raise e, st') => (Raise e, st')
    end.

Notation "x <- m ;; k" := (bind m (fun x => k))
  (at level 100, m at next level, right associativity).
Notation "m ;;; k" := (bind m (fun _ => k))
  (at level 100, right associativity).

Definition record (st : state) (ev : event) : state :=
  {| heap := heap st; trace := trace st ++ [ev] |}.

Definition log (ev : event) : M unit := fun st => (Ret tt, record st ev).

(** A step of a collaborator: it sees and may change the store only. *)
Definition extern {A} (f : store -> outcome A * store) : M A :=
  fun st =>
    let '(r, h) := f (heap st) in
    (r, {| heap := h; trace := trace st |}).

(** ** Keyword dictionaries *)

Fixpoint alist_lookup (k : string) (l : kwargs) : option value :=
  match l with
  | [] => None
  | (k', v) :: r => if String.eqb k k' then Some v else alist_lookup k r
  end.

Definition alist_mem (k : string) (l : kwargs) : bool :=
  match alist_lookup k l with Some _ => true | None => false end.

Fixpoint alist_set (k : string) (v : value) (l : kwargs) : kwargs :=
  match l with
  | [] => [(k, v)]
  | (k', v') :: r =>
      if String.eqb k k' then (k, v) :: r else (k', v') :: alist_set k v r
  end.

(** [{**k1, **k2}]: the bindings of [k2] override those of [k1]. *)
Definition kw_merge (k1 k2 : kwargs) : kwargs :=
  fold_left (fun acc kv => alist_set (fst kv) (snd kv) acc) k2 k1.

(** ** Names and paths *)

Fixpoint split_last_dot (s : string) : option (string * string) :=
  match s with
  | EmptyString => None
  | String c r =>
      match split_last_dot r with
      | Some (p, q) => Some (String c p, q)
      | None => if Ascii.eqb c "."%char then Some (EmptyString, r) else None
      end
  end.

(** Modelled from the spec: [nnfabrik.utility.nnf_helper.split_module_name]
    is not under src/.  The spec has an identifier string encode a dotted
    path, split into a module path prefix and a symbol name suffix; the
    module path is empty when the string has no prefix. *)
Definition split_module_name (abs_class_name : string) : string * string :=
  match split_last_dot abs_class_name with
  | Some (module_path, class_name) => (module_path, class_name)
  | None => (EmptyString, abs_class_name)
  end.

(** Truth value of a string in a condition: non-empty. *)
Definition truthy (s : string) : bool :=
  match s with EmptyString => false | String _ _ => true end.

Definition in_range (lo hi : nat) (c : ascii) : bool :=
  Nat.leb lo (nat_of_ascii c) && Nat.leb (nat_of_ascii c) hi.

Definition is_name_start (c : ascii) : bool :=
  in_range 65 90 c || in_range 97 122 c || Ascii.eqb c "_"%char.

Definition is_name_char (c : ascii) : bool :=
  is_name_start c || in_range 48 57 c.

Fixpoint all_chars (p : ascii -> bool) (s : string) : bool :=
  match s with
  | EmptyString => true
  | String c r => p c && all_chars p r
  end.

Definition keywords : list string :=
  [ "False"; "None"; "True"; "and"; "as"; "assert"; "async"; "await";
    "break"; "class"; "continue"; "def"; "del"; "elif"; "else"; "except";
    "finally"; "for"; "from"; "global"; "if"; "import"; "in"; "is";
    "lambda"; "nonlocal"; "not"; "or"; "pass"; "raise"; "return"; "try";
    "while"; "with"; "yield" ].

(** A Python name (ASCII): a letter or underscore, then letters, digits and
    underscores, and not a reserved word. *)
Definition is_name (s : string) : bool :=
  match s with
  | EmptyString => false
  | String c r =>
      is_name_start c && all_chars is_name_char r
      && negb (existsb (String.eqb s) keywords)
  end.

Fixpoint split_first_dot (s : string) : option (string * string) :=
  match s with
  | EmptyString => None
  | String c r =>
      if Ascii.eqb c "."%char then Some (EmptyString, r)
      else match split_first_dot r with
           | Some (p, q) => Some (String c p, q)
           | None => None
           end
  end.

(** An expression of the form [name.name]. *)
Definition attr_ref (src : string) : option (string * string) :=
  match split_first_dot src with
  | Some (root, attr) =>
      if is_name root && is_name attr then Some (root, attr) else None
  | None => None
  end.

(** The global names of builder.py that are bound to the three packages. *)
Definition global_module (name : string) : option namespace :=
  if String.eqb name "datasets" then Some Datasets
  else if String.eqb name "models" then Some Models
  else if String.eqb name "training" then Some Training
  else None.

(** ** The builder *)

Section Builder.

Variable W : world.

(** [print(v)]. *)
Definition print (v : value) : M unit := log (EvPrint v).

(** [dynamic_import(module_path, class_name)]: the importer is a
    collaborator; the builder only chooses its two arguments. *)
Definition dynamic_import (module_path class_name : string) : M value :=
  log (EvImport module_path class_name) ;;;
  extern (w_import W module_path class_name).

(** [eval(src)] inside a function of builder.py whose local variables are
    [locals].  None of those functions has a local named after a package,
    so an attribute reference on one of the three packages reads that
    package's attribute and raises [AttributeError] when there is none; any
    other expression is left to the world, which sees the locals. *)
Definition py_eval (locals : kwargs) (src : string) : M value :=
  match attr_ref src with
  | Some (root, attr) =>
      match global_module root with
      | Some ns =>
          match w_attr W ns attr with
          | Some v => ret v
          | None => raise (AttributeError attr)
          end
      | None => log (EvEval src) ;;; extern (w_eval W src locals)
      end
  | None => log (EvEval src) ;;; extern (w_eval W src locals)
  end.

(** The two lines the three resolution functions share, [prefix] being
    ['models.'], ['datasets.'] or ['training.']:
<<
    module_path, class_name = split_module_name(fn)
    fn = dynamic_import(module_path, class_name) if module_path else eval(prefix + fn)
>>
    [frame] holds the parameters of the function the lines stand in;
    with [module_path] and [class_name] they are the locals [eval] sees. *)
Definition resolve (prefix : string) (frame : kwargs) (fn : string) : M value :=
  let '(module_path, class_name) := split_module_name fn in
  if truthy module_path then dynamic_import module_path class_name
  else py_eval (frame ++ [("module_path", VStr module_path);
                          ("class_name", VStr class_name)])
         (prefix +:+ fn).

(** [callable(v)]. *)
Definition callable (h : store) (v : value) : bool :=
  match v with
  | VObj o => w_callable W o
  | VPartial _ _ _ => true
  | VRef l => match h !! l with Some (HModule _) => true | _ => false end
  | _ => false
  end.

(** What calling [fn] on positional arguments [args] and keywords [kw] does
    to the store, and what it returns.
    A partial object calls its function with its own arguments first and the
    keywords merged; an opaque callable or a module is a collaborator. *)
Fixpoint apply (fn : value) (args : list value) (kw : kwargs) (h : store)
  : outcome value * store :=
  match fn with
  | VPartial func args0 kw0 => apply func (args0 ++ args) (kw_merge kw0 kw) h
  | VObj o =>
      if w_callable W o then w_apply W fn args kw h else (Raise TypeError, h)
  | VRef l =>
      match h !! l with
      | Some (HModule _) => w_apply W fn args kw h
      | _ => (Raise TypeError, h)
      end
  | _ => (Raise TypeError, h)
  end.

(** A call made by the builder itself: it is recorded, then performed. *)
Definition invoke (fn : value) (args : list value) (kw : kwargs) : M value :=
  log (EvCall fn args kw) ;;; extern (apply fn args kw).

(** The keyword arguments of a call [f(..., k=v, **cfg)], where [fixed] are
    the keywords written out in the call: [cfg] must be a mapping, and must
    not bind a keyword that is already given. *)
Definition kwargs_expand (fixed : kwargs) (cfg : value) : M kwargs :=
  fun st =>
    match cfg with
    | VRef l =>
        match heap st !! l with
        | Some (HDict entries) =>
            if existsb (fun kv => alist_mem (fst kv) fixed) entries
            then (Raise TypeError, st)
            else (Ret (fixed ++ entries), st)
        | _ => (Raise TypeError, st)
        end
    | _ => (Raise TypeError, st)
    end.

(** [functools.partial(fn, **kw)]: [fn] must be callable; the keywords are
    copied into the new object, and a partial of a partial is flattened. *)
Definition partial (fn : value) (kw : kwargs) : M value :=
  fun st =>
    if callable (heap st) fn then
      match fn with
      | VPartial func args0 kw0 =>
          (Ret (VPartial func args0 (kw_merge kw0 kw)), st)
      | _ => (Ret (VPartial fn [] kw), st)
      end
    else (Raise TypeError, st).

(** [container[key]] for a string key. *)
Definition getitem (container : value) (key : string) : M value :=
  log (EvGetItem container key) ;;;
  fun st =>
    match container with
    | VRef l =>
        match heap st !! l with
        | Some (HDict entries) =>
            match alist_lookup key entries with
            | Some v => (Ret v, st)
            | None => (Raise (KeyError key), st)
            end
        | _ => (Raise TypeError, st)
        end
    | VObj o => extern (w_getitem W o key) st
    | _ => (Raise TypeError, st)
    end.

Definition is_nil {A} (l : list A) : bool :=
  match l with [] => true | _ => false end.

(** Parameter names of the module that the blob lacks, and names of the blob
    that the module does not have. *)
Definition missing_keys (params entries : kwargs) : list string :=
  List.filter (fun k => negb (alist_mem k entries)) (map fst params).

Definition unexpected_keys (params entries : kwargs) : list string :=
  List.filter (fun k => negb (alist_mem k params)) (map fst entries).

Definition key_mismatch (params entries : kwargs) : bool :=
  negb (is_nil (missing_keys params entries)
        && is_nil (unexpected_keys params entries)).

Definition copy_params (params entries : kwargs) : kwargs :=
  map (fun kv => match alist_lookup (fst kv) entries with
                 | Some v => (fst kv, v)
                 | None => kv
                 end) params.

(** Modelled from the spec: [nn.Module.load_state_dict] belongs to the
    framework, not to src/.  The blob is loaded into the module honouring
    the strictness flag: strict, every parameter name must match; non-strict,
    missing and extra parameter names are tolerated.  The entries whose
    names match are copied into the module. *)
Definition module_load (l : loc) (params : kwargs) (state_dict : value)
    (strict : bool) : M value :=
  fun st =>
    match state_dict with
    | VRef l' =>
        match heap st !! l' with
        | Some (HDict entries) =>
            let st' := {| heap := <[l := HModule (copy_params params entries)]>
                                    (heap st);
                          trace := trace st |} in
            if strict && key_mismatch params entries
            then (Raise (LoadError (missing_keys params entries)
                                   (unexpected_keys params entries)), st')
            else (Ret VNone, st')
        | _ => (Raise TypeError, st)
        end
    | _ => (Raise TypeError, st)
    end.

(** [net.load_state_dict(state_dict, strict=strict)]. *)
Definition load_state_dict (net state_dict : value) (strict : bool) : M value :=
  log (EvLoad net state_dict strict) ;;;
  fun st =>
    match net with
    | VRef l =>
        match heap st !! l with
        | Some (HModule params) => module_load l params state_dict strict st
        | _ => (Raise (AttributeError "load_state_dict"), st)
        end
    | VObj o => extern (w_load W o state_dict strict) st
    | _ => (Raise (AttributeError "load_state_dict"), st)
    end.

Definition is_none (v : value) : bool :=
  match v with VNone => true | _ => false end.

(** The parameters of the three resolution functions, as their frames hold
    them when the identifier is resolved. *)
Definition model_frame (model_fn model_config dataloader seed state_dict : value)
    (strict : bool) : kwargs :=
  [("model_fn", model_fn); ("model_config", model_config);
   ("dataloader", dataloader); ("seed", seed); ("state_dict", state_dict);
   ("strict", VBool strict)].

Definition data_frame (dataset_fn dataset_config : value) : kwargs :=
  [("dataset_fn", dataset_fn); ("dataset_config", dataset_config)].

Definition trainer_frame (trainer_fn trainer_config : value) : kwargs :=
  [("trainer_fn", trainer_fn); ("trainer_config", trainer_config)].

(** [get_model(model_fn, model_config, dataloader, seed=None,
    state_dict=None, strict=True)]. *)
Definition get_model (model_fn model_config dataloader seed state_dict : value)
    (strict : bool) : M value :=
  model_fn <- match model_fn with
              | VStr s =>
                  resolve "models."
                    (model_frame model_fn model_config dataloader seed
                       state_dict strict) s
              | _ => ret model_fn
              end ;;
  kw <- kwargs_expand [("seed", seed)] model_config ;;
  net <- invoke model_fn [dataloader] kw ;;
  (if is_none state_dict then ret VNone
   else load_state_dict net state_dict strict) ;;;
  ret net.

(** [get_data(dataset_fn, dataset_config)]. *)
Definition get_data (dataset_fn dataset_config : value) : M value :=
  dataset_fn <- match dataset_fn with
                | VStr s =>
                    resolve "datasets." (data_frame dataset_fn dataset_config) s
                | _ => ret dataset_fn
                end ;;
  kw <- kwargs_expand [] dataset_config ;;
  invoke dataset_fn [] kw.

(** [get_trainer(trainer_fn, trainer_config=None)].  A function that ends
    without [return] yields [None]. *)
Definition get_trainer (trainer_fn trainer_config : value) : M value :=
  print trainer_config ;;;
  match trainer_fn with
  | VStr s =>
      trainer_fn <- resolve "training."
                      (trainer_frame trainer_fn trainer_config) s ;;
      kw <- kwargs_expand [] trainer_config ;;
      invoke trainer_fn [] kw
  | _ =>
      if negb (is_none trainer_config) then
        kw <- kwargs_expand [] trainer_config ;;
        trainer_fn <- partial trainer_fn kw ;;
        ret trainer_fn
      else ret VNone
  end.

(** [get_all_parts(dataset_fn, dataset_config, model_fn, model_config,
    seed=None, dl_key='train', state_dict=None, strict=True, trainer_fn=None,
    trainer_config=None)]. *)
Definition get_all_parts (dataset_fn dataset_config model_fn model_config
    seed : value) (dl_key : string) (state_dict : value) (strict : bool)
    (trainer_fn trainer_config : value) : M value :=
  dataloaders <- get_data dataset_fn dataset_config ;;
  dl <- getitem dataloaders dl_key ;;
  model <- get_model model_fn model_config dl seed state_dict strict ;;
  if negb (is_none trainer_fn) then
    trainer <- get_trainer trainer_fn trainer_config ;;
    ret (VTuple [dataloaders; model; trainer])
  else ret (VTuple [dataloaders; model]).

End Builder.

(** ** A concrete world

    Two dataset functions, two model builders and a trainer, used to run the
    builder on concrete inputs. *)

Module Demo.

Definition attr (ns : namespace) (name : string) : option value :=
  match ns with
  | Datasets => if String.eqb name "mnist" then Some (VObj "mnist") else None
  | Models => if String.eqb name "mlp" then Some (VObj "mlp") else None
  | Training => if String.eqb name "sgd" then Some (VObj "sgd") else None
  end.

Definition import (module_path class_name : string) (h : store)
  : outcome value * store :=
  if String.eqb module_path "foo.bar" && String.eqb class_name "make_loaders"
  then (Ret (VObj "make_loaders"), h)
  else if String.eqb module_path "baz" && String.eqb class_name "make_model"
  then (Ret (VObj "make_model"), h)
  else (Raise (ImportError module_path), h).

Definition functions : list string :=
  ["mnist"; "make_loaders"; "mlp"; "make_model"; "sgd"].

Definition is_function (o : string) : bool := existsb (String.eqb o) functions.

(** A new object is put at a location the store does not use yet. *)
Definition alloc (o : hobj) (h : store) : loc * store :=
  let l := fresh (dom h) in (l, <[l := o]> h).

Definition loaders : hobj :=
  HDict [("train", VObj "train_loader"); ("validation", VObj "val_loader")].

Definition network : hobj :=
  HModule [("weight", VInt 0); ("bias", VInt 0)].

(** The keyword [k] is given, with an integer. *)
Definition has_int (k : string) (kw : kwargs) : bool :=
  match alist_lookup k kw with Some (VInt _) => true | _ => false end.

(** The dataset functions take [batch_size] and nothing else and return a
    new dict of loaders; the model builders take the dataloader, [seed] and
    [hidden] and return a new module; the trainer takes [epochs] and returns
    it.  Any other call is a [TypeError]. *)
Definition call (fn : value) (args : list value) (kw : kwargs) (h : store)
  : outcome value * store :=
  match fn with
  | VObj o =>
      if String.eqb o "mnist" || String.eqb o "make_loaders" then
        if Nat.eqb (length args) 0 && Nat.eqb (length kw) 1
           && has_int "batch_size" kw
        then (Ret (VRef (fst (alloc loaders h))), snd (alloc loaders h))
        else (Raise TypeError, h)
      else if String.eqb o "mlp" || String.eqb o "make_model" then
        if Nat.eqb (length args) 1 && Nat.eqb (length kw) 2
           && alist_mem "seed" kw && has_int "hidden" kw
        then (Ret (VRef (fst (alloc network h))), snd (alloc network h))
        else (Raise TypeError, h)
      else if String.eqb o "sgd" then
        if Nat.eqb (length args) 0 && Nat.eqb (length kw) 1
        then match alist_lookup "epochs" kw with
             | Some (VInt n) => (Ret (VInt n), h)
             | _ => (Raise TypeError, h)
             end
        else (Raise TypeError, h)
      else (Raise TypeError, h)
  | _ => (Raise TypeError, h)
  end.

(** [s] without its trailing blanks. *)
Fixpoint rstrip (s : string) : string :=
  match s with
  | EmptyString => EmptyString
  | String c r =>
      match rstrip r with
      | EmptyString =>
          if Ascii.eqb c " "%char then EmptyString else String c EmptyString
      | r' => String c r'
      end
  end.

(** [eval] on the other expressions: as Python's tokenizer does, it ignores
    blanks at the end of the source, so that an attribute reference followed
    by blanks reads the attribute; it rejects everything else. *)
Definition eval (src : string) (locals : kwargs) (h : store)
  : outcome value * store :=
  match attr_ref (rstrip src) with
  | Some (root, name) =>
      match global_module root with
      | Some ns =>
          match attr ns name with
          | Some v => (Ret v, h)
          | None => (Raise (AttributeError name), h)
          end
      | None => (Raise (Failure "NameError"), h)
      end
  | None => (Raise (Failure "SyntaxError"), h)
  end.

(** No opaque object can be subscripted or loaded. *)
Definition world : world := {|
  w_attr := attr;
  w_import := import;
  w_eval := eval;
  w_callable := is_function;
  w_apply := call;
  w_getitem := fun _ _ h => (Raise TypeError, h);
  w_load := fun _ _ _ h => (Raise (AttributeError "load_state_dict"), h)
|}.

(** A store with three configuration dicts and a state dict. *)
Definition store0 : store :=
  <[1%positive := HDict [("batch_size", VInt 32)]]>
  (<[2%positive := HDict [("hidden", VInt 64)]]>
  (<[3%positive := HDict [("epochs", VInt 5)]]>
  (<[4%positive := HDict [("weight", VInt 7); ("extra", VInt 9)]]> ∅))).

Definition state0 : state := {| heap := store0; trace := [] |}.

End Demo.

(** ** Stub worlds *)

Module Stub.

(** [W] with its namespaces emptied and its importer and [eval] failing;
    the objects behave as in [W]. *)
Definition without_names (W : world) : world := {|
  w_attr := fun _ _ => None;
  w_import := fun module_path _ h => (Raise (ImportError module_path), h);
  w_eval := fun src locals h => (Raise (Failure "SyntaxError"), h);
  w_callable := w_callable W;
  w_apply := w_apply W;
  w_getitem := w_getitem W;
  w_load := w_load W
|}.

(** A world in which every object can be called and returns [None], and
    whose [eval] knows one conditional expression, which reads the local
    [state_dict] of the function that evaluates it. *)
Definition conditional : string := "mlp if state_dict is None else dict".

Definition peeking : world := {|
  w_attr := fun _ _ => None;
  w_import := fun module_path _ h => (Raise (ImportError module_path), h);
  w_eval := fun src locals h =>
    if String.eqb src ("models." +:+ conditional) then
      match alist_lookup "state_dict" locals with
      | Some VNone => (Ret (VObj "mlp"), h)
      | Some _ => (Ret (VObj "dict"), h)
      | None => (Raise (Failure "NameError"), h)
      end
    else (Raise (Failure "SyntaxError"), h);
  w_callable := fun _ => true;
  w_apply := fun _ _ _ h => (Ret VNone, h);
  w_getitem := fun _ _ h => (Raise TypeError, h);
  w_load := fun _ _ _ h => (Raise (AttributeError "load_state_dict"), h)
|}.

(** A world with nothing in its namespaces, in which every object can be
    called and every call returns [None]. *)
Definition world : world := {|
  w_attr := fun _ _ => None;
  w_import := fun module_path _ h => (Raise (ImportError module_path), h);
  w_eval := fun src locals h => (Raise (Failure "SyntaxError"), h);
  w_callable := fun _ => true;
  w_apply := fun _ _ _ h => (Ret VNone, h);
  w_getitem := fun _ _ h => (Raise TypeError, h);
  w_load := fun _ _ _ h => (Raise (AttributeError "load_state_dict"), h)
|}.

End Stub.

(** ** Resolution as the specification words it *)

Definition prefix_of (ns : namespace) : string :=
  match ns with
  | Datasets => "datasets."
  | Models => "models."
  | Training => "training."
  end.



(** ** Observations

    The predicates the theorems are stated with: what a computation adds to
    the trace, and what it leaves in place in the store. *)

(** Running [m] from [st] appends events to the trace, and each of them
    satisfies [Q]. *)
Definition emits {A} (Q : event -> Prop) (m : M A) (st : state) : Prop :=
  exists evs, trace (snd (m st)) = trace st ++ evs /\ Forall Q evs.

Definition is_call (ev : event) : bool :=
  match ev with EvCall _ _ _ => true | _ => false end.

(** The value [get_model] goes on with after its first two lines. *)
Definition resolved_model_fn (W : world)
    (model_fn model_config dataloader seed state_dict : value)
    (strict : bool) : M value :=
  match model_fn with
  | VStr s =>
      resolve W "models."
        (model_frame model_fn model_config dataloader seed state_dict strict) s
  | _ => ret model_fn
  end.

(** [get_model] up to the builder's call: the model a run constructs. *)
Definition build_model (W : world)
    (model_fn model_config dataloader seed state_dict : value)
    (strict : bool) : M value :=
  f <- resolved_model_fn W model_fn model_config dataloader seed state_dict
         strict ;;
  kw <- kwargs_expand [("seed", seed)] model_config ;;
  invoke W f [dataloader] kw.

Definition is_print (ev : event) : bool :=
  match ev with EvPrint _ => true | _ => false end.

(** The value [get_data] goes on with after its first two lines. *)
Definition resolved_data_fn (W : world) (dataset_fn dataset_config : value)
  : M value :=
  match dataset_fn with
  | VStr s => resolve W "datasets." (data_frame dataset_fn dataset_config) s
  | _ => ret dataset_fn
  end.

(** Values that are no mapping whatever the store holds. *)
Definition not_mapping (v : value) : bool :=
  match v with
  | VNone | VBool _ | VInt _ | VStr _ | VTuple _ | VPartial _ _ _ => true
  | VRef _ | VObj _ => false
  end.

(** Values with a [load_state_dict] attribute: module objects, and opaque
    objects, for which the world answers. *)
Definition loadable (h : store) (v : value) : bool :=
  match v with
  | VObj _ => true
  | VRef l => match h !! l with Some (HModule _) => true | _ => false end
  | _ => false
  end.

(** The result of a run and the events it recorded. *)
Definition observe {A} (r : outcome A * state) : outcome A * list event :=
  (fst r, trace (snd r)).

(** The store holds the dict [entries] at [l]. *)
Definition dict_at (l : loc) (entries : kwargs) (h : store) : Prop :=
  h !! l = Some (HDict entries).

(** The collaborators of [W] leave the dict at [l] as it is. *)
Definition world_frame (W : world) (l : loc) (entries : kwargs) : Prop :=
  (forall mp cn h, dict_at l entries h ->
     dict_at l entries (snd (w_import W mp cn h)))
  /\ (forall src locals h, dict_at l entries h ->
     dict_at l entries (snd (w_eval W src locals h)))
  /\ (forall fn args kw h, dict_at l entries h ->
     dict_at l entries (snd (w_apply W fn args kw h)))
  /\ (forall o key h, dict_at l entries h ->
     dict_at l entries (snd (w_getitem W o key h)))
  /\ (forall o sd strict h, dict_at l entries h ->
     dict_at l entries (snd (w_load W o sd strict h))).

Definition preserves {A} (P : store -> Prop) (m : M A) : Prop :=
  forall st, P (heap st) -> P (heap (snd (m st))).

(** ** Facts about the monad *)

Lemma bind_ret {A B} (m : M A) (k : A -> M B) st a st' :
  m st = (Ret a, st') -> bind m k st = k a st'.
Proof. intros H. unfold bind. now rewrite H. Qed.

Lemma bind_raise {A B} (m : M A) (k : A -> M B) st e st' :
  m st = (Raise e, st') -> bind m k st = (Raise e, st').
Proof. intros H. unfold bind. now rewrite H. Qed.

Lemma bind_log {B} ev (k : unit -> M B) st :
  bind (log ev) k st = k tt (record st ev).
Proof. reflexivity. Qed.

(** ** Facts about names *)

Lemma name_char_not_dot c : is_name_char c = true -> Ascii.eqb c "." = false.
Proof.
  intros H. destruct (Ascii.eqb_spec c "."%char) as [->|]; [|reflexivity].
  vm_compute in H. discriminate.
Qed.

Lemma no_dot_first s :
  all_chars is_name_char s = true -> split_first_dot s = None.
Proof.
  induction s as [|c r IH]; simpl; [reflexivity|].
  intros [Hc Hr]%andb_prop.
  now rewrite (name_char_not_dot _ Hc), (IH Hr).
Qed.




Lemma split_first_dot_app root s :
  all_chars is_name_char root = true ->
  split_first_dot (root +:+ String "." s) = Some (root, s).
Proof.
  induction root as [|c r IH]; simpl; [reflexivity|].
  intros [Hc Hr]%andb_prop.
  now rewrite (name_char_not_dot _ Hc), (IH Hr).
Qed.



(** ** Facts about the builder's steps *)

Section Facts.

Variable W : world.


(** Off the paths the source does not look a symbol up: a string with an
    empty module path that is not a name goes to [eval] as it is, behind the
    prefix. *)
Lemma resolve_not_name ns frame s :
  fst (split_module_name s) = "" -> is_name s = false ->
  resolve W (prefix_of ns) frame s =
    (log (EvEval (prefix_of ns +:+ s)) ;;;
     extern (w_eval W (prefix_of ns +:+ s)
               (frame ++ [("module_path", VStr "");
                          ("class_name", VStr (snd (split_module_name s)))]))).
Proof.
  unfold resolve. destruct (split_module_name s) as [mp cn]. simpl.
  intros -> Hn. simpl. unfold py_eval.
  assert (Hsplit : forall root, all_chars is_name_char root = true ->
            attr_ref (root +:+ String "." s) = None).
  { intros root Hc. unfold attr_ref.
    now rewrite (split_first_dot_app _ _ Hc), Hn, andb_false_r. }
  assert (Hnone : attr_ref (prefix_of ns +:+ s) = None).
  { destruct ns.
    - exact (Hsplit "datasets" eq_refl).
    - exact (Hsplit "models" eq_refl).
    - exact (Hsplit "training" eq_refl). }
  now rewrite Hnone.
Qed.

Lemma no_fixed_clash (entries : kwargs) :
  existsb (fun kv => alist_mem (fst kv) []) entries = false.
Proof. induction entries as [|kv r IH]; [reflexivity|exact IH]. Qed.

Lemma kwargs_expand_dict fixed l entries st :
  heap st !! l = Some (HDict entries) ->
  existsb (fun kv => alist_mem (fst kv) fixed) entries = false ->
  kwargs_expand fixed (VRef l) st = (Ret (fixed ++ entries), st).
Proof. intros Hl Hc. unfold kwargs_expand. now rewrite Hl, Hc. Qed.

Lemma kwargs_expand_nil l entries st :
  heap st !! l = Some (HDict entries) ->
  kwargs_expand [] (VRef l) st = (Ret entries, st).
Proof. intros Hl. apply (kwargs_expand_dict [] l entries st Hl), no_fixed_clash. Qed.

(** Expanding a configuration reads the store and changes nothing; when it
    succeeds the configuration is a dict and the keywords are the written
    ones followed by the dict's entries. *)
Lemma kwargs_expand_inv fixed cfg st r st' :
  kwargs_expand fixed cfg st = (r, st') ->
  st' = st
  /\ forall kw, r = Ret kw ->
       exists l entries, cfg = VRef l
         /\ heap st !! l = Some (HDict entries)
         /\ kw = fixed ++ entries.
Proof.
  unfold kwargs_expand. intros H.
  destruct cfg; try (injection H as <- <-; split; [reflexivity|discriminate]).
  destruct (heap st !! l) as [[entries|params]|] eqn:Hl;
    try (injection H as <- <-; split; [reflexivity|discriminate]).
  destruct (existsb _ entries);
    injection H as <- <-; (split; [reflexivity|]); [discriminate|].
  intros kw [= <-]. eauto.
Qed.

Lemma invoke_run fn args kw st :
  invoke W fn args kw st =
    (fst (apply W fn args kw (heap st)),
     {| heap := snd (apply W fn args kw (heap st));
        trace := trace st ++ [EvCall fn args kw] |}).
Proof.
  unfold invoke. rewrite bind_log. unfold extern. simpl.
  now destruct (apply W fn args kw (heap st)).
Qed.

Lemma kw_merge_nil k : kw_merge k [] = k.
Proof. reflexivity. Qed.

Lemma callable_not_str h s : callable W h (VStr s) = false.
Proof. reflexivity. Qed.

End Facts.



(** ** Trainer resolution *)



(** C2: for a callable trainer identifier and a configuration dict,
    [get_trainer] calls nothing (it only prints: the store is untouched and
    no call is recorded) and returns a callable [p] such that calling [p]
    with no arguments does, in every store, what calling the original with
    the dict's entries as keyword arguments does. *)
Theorem get_trainer_callable_partial W fn l entries st :
  callable W (heap st) fn = true ->
  heap st !! l = Some (HDict entries) ->
  exists p,
    get_trainer W fn (VRef l) st = (Ret p, record st (EvPrint (VRef l)))
    /\ callable W (heap st) p = true
    /\ forall h, apply W p [] [] h = apply W fn [] entries h.
Proof.
  intros Hcall Hcfg.
  assert (Hrun : get_trainer W fn (VRef l) st =
                 partial W fn entries (record st (EvPrint (VRef l)))).
  { unfold get_trainer, print. rewrite bind_log.
    destruct fn; try (simpl in Hcall; discriminate);
      simpl;
      rewrite (bind_ret _ _ _ _ _
                 (kwargs_expand_nil l entries (record st _) Hcfg));
      unfold bind; now destruct (partial W _ entries _) as [[]]. }
  rewrite Hrun. unfold partial. simpl heap. rewrite Hcall.
  destruct fn; try (simpl in Hcall; discriminate).
  - eexists. split; [reflexivity|]. split; [reflexivity|].
    intros h. reflexivity.
  - eexists. split; [reflexivity|]. split; [reflexivity|].
    intros h. reflexivity.
  - eexists. split; [reflexivity|]. split; [reflexivity|].
    intros h. simpl. now rewrite app_nil_r.
Qed.

Lemma get_trainer_callable_partial_witness :
  exists p,
    get_trainer Demo.world (VObj "sgd") (VRef 3%positive) Demo.state0 =
      (Ret p, record Demo.state0 (EvPrint (VRef 3%positive)))
    /\ callable Demo.world Demo.store0 p = true
    /\ forall h, apply Demo.world p [] [] h =
                 apply Demo.world (VObj "sgd") [] [("epochs", VInt 5)] h.
Proof.
  apply (get_trainer_callable_partial Demo.world (VObj "sgd") 3%positive
           [("epochs", VInt 5)] Demo.state0); reflexivity.
Defined.

(** C8: for a callable trainer identifier and no configuration
    ([trainer_config] is [None]), [get_trainer] falls through both branches
    and returns [None], which is not the identifier; nothing but the print
    happens. *)
Theorem get_trainer_callable_without_config W fn st :
  callable W (heap st) fn = true ->
  get_trainer W fn VNone st = (Ret VNone, record st (EvPrint VNone))
  /\ fn <> VNone.
Proof.
  intros Hcall. split.
  - destruct fn; try (simpl in Hcall; discriminate); reflexivity.
  - intros ->. simpl in Hcall. discriminate.
Qed.

Lemma get_trainer_callable_without_config_witness :
  get_trainer Demo.world (VObj "sgd") VNone Demo.state0 =
    (Ret VNone, record Demo.state0 (EvPrint VNone))
  /\ VObj "sgd" <> VNone.
Proof.
  apply (get_trainer_callable_without_config Demo.world (VObj "sgd")
           Demo.state0).
  reflexivity.
Defined.

(** C9: for a string trainer identifier and no configuration, [get_trainer]
    always raises.  Either the resolution raises, or the resolved value is
    there and expanding [None] as keyword arguments raises [TypeError]
    before any call: the state is the one the resolution left. *)
Theorem get_trainer_string_requires_config W s st :
  (exists e st', get_trainer W (VStr s) VNone st = (Raise e, st'))
  /\ get_trainer W (VStr s) VNone st =
       match resolve W "training." (trainer_frame (VStr s) VNone) s
               (record st (EvPrint VNone)) with
       | (Ret _, st1) => (Raise TypeError, st1)
       | (Raise e, st1) => (Raise e, st1)
       end.
Proof.
  assert (Heq : get_trainer W (VStr s) VNone st =
       match resolve W "training." (trainer_frame (VStr s) VNone) s
               (record st (EvPrint VNone)) with
       | (Ret _, st1) => (Raise TypeError, st1)
       | (Raise e, st1) => (Raise e, st1)
       end).
  { unfold get_trainer, print. rewrite bind_log. unfold bind at 1.
    now destruct (resolve W "training." _ s _) as [[f|e] st1]. }
  split; [|exact Heq].
  rewrite Heq.
  destruct (resolve W "training." _ s _) as [[f|e] st1]; eauto.
Qed.

(** ** Resolution of string identifiers *)




(** ** What a computation records *)

Lemma emits_same {A} Q (m : M A) st :
  trace (snd (m st)) = trace st -> emits Q m st.
Proof. intros H. exists []. rewrite H, app_nil_r. now split. Qed.

Lemma emits_ret {A} Q (a : A) st : emits Q (ret a) st.
Proof. now apply emits_same. Qed.

Lemma emits_raise {A} Q e st : emits Q (@raise A e) st.
Proof. now apply emits_same. Qed.

Lemma emits_log Q ev st : Q ev -> emits Q (log ev) st.
Proof. intros H. exists [ev]. split; [reflexivity|]. now constructor. Qed.

Lemma emits_extern {A} Q (f : store -> outcome A * store) st :
  emits Q (extern f) st.
Proof.
  apply emits_same. unfold extern. now destruct (f (heap st)).
Qed.

Lemma emits_bind {A B} Q (m : M A) (k : A -> M B) st :
  emits Q m st ->
  (forall a st', m st = (Ret a, st') -> emits Q (k a) st') ->
  emits Q (bind m k) st.
Proof.
  intros (evs & Ht & Hq) Hk. unfold emits, bind.
  destruct (m st) as [[a|e] st'] eqn:E; simpl in Ht.
  - destruct (Hk a st' eq_refl) as (evs' & Ht' & Hq').
    exists (evs ++ evs'). split.
    + now rewrite Ht', Ht, app_assoc.
    + now apply Forall_app.
  - exists evs. now split.
Qed.

Section Traces.

Variable W : world.
Variable Q : event -> Prop.

Lemma emits_kwargs_expand fixed cfg st : emits Q (kwargs_expand fixed cfg) st.
Proof.
  apply emits_same.
  destruct (kwargs_expand fixed cfg st) as [r st'] eqn:E.
  now destruct (kwargs_expand_inv fixed cfg st r st' E) as [-> _].
Qed.

Lemma emits_invoke fn args kw st :
  Q (EvCall fn args kw) -> emits Q (invoke W fn args kw) st.
Proof.
  intros H. unfold invoke.
  apply emits_bind; [now apply emits_log|]. intros _ st' _.
  apply emits_extern.
Qed.

Lemma emits_resolve prefix frame s st :
  (forall mp cn, Q (EvImport mp cn)) -> (forall src, Q (EvEval src)) ->
  emits Q (resolve W prefix frame s) st.
Proof.
  intros Hi He. unfold resolve.
  destruct (split_module_name s) as [mp cn].
  assert (Heval : forall src locals st',
            emits Q (log (EvEval src) ;;; extern (w_eval W src locals)) st').
  { intros src locals st'. apply emits_bind; [now apply emits_log|].
    intros _ st'' _. apply emits_extern. }
  destruct (truthy mp).
  - unfold dynamic_import. apply emits_bind; [now apply emits_log|].
    intros _ st' _. apply emits_extern.
  - unfold py_eval.
    destruct (attr_ref _) as [[root attr]|]; [|apply Heval].
    destruct (global_module root); [|apply Heval].
    destruct (w_attr W _ attr); [apply emits_ret|apply emits_raise].
Qed.

Lemma emits_load_state_dict net sd strict st :
  Q (EvLoad net sd strict) -> emits Q (load_state_dict W net sd strict) st.
Proof.
  intros H. unfold load_state_dict.
  apply emits_bind; [now apply emits_log|]. intros _ st' _.
  apply emits_same.
  destruct net; try reflexivity.
  - destruct (heap st' !! l) as [[entries|params]|]; try reflexivity.
    unfold module_load.
    destruct sd; try reflexivity.
    destruct (heap st' !! l0) as [[entries|params']|]; try reflexivity.
    now destruct (strict && key_mismatch params entries).
  - unfold extern. now destruct (w_load W o sd strict (heap st')).
Qed.

End Traces.

(** ** What a computation leaves in place *)

Lemma preserves_ret {A} P (a : A) : preserves P (ret a).
Proof. now intros st H. Qed.

Lemma preserves_raise {A} P e : preserves P (@raise A e).
Proof. now intros st H. Qed.

Lemma preserves_log P ev : preserves P (log ev).
Proof. now intros st H. Qed.

Lemma preserves_extern {A} (P : store -> Prop)
    (f : store -> outcome A * store) :
  (forall h, P h -> P (snd (f h))) -> preserves P (extern f).
Proof.
  intros Hf st H. unfold extern. specialize (Hf _ H).
  now destruct (f (heap st)).
Qed.

Lemma preserves_bind {A B} P (m : M A) (k : A -> M B) :
  preserves P m -> (forall a, preserves P (k a)) -> preserves P (bind m k).
Proof.
  intros Hm Hk st H. unfold bind. specialize (Hm st H).
  destruct (m st) as [[a|e] st']; [now apply Hk|exact Hm].
Qed.

Section Frame.

Variable W : world.
Variable l : loc.
Variable entries : kwargs.
Hypothesis HW : world_frame W l entries.

Let P := dict_at l entries.

Lemma apply_frame fn : forall args kw h, P h -> P (snd (apply W fn args kw h)).
Proof.
  destruct HW as (_ & _ & Happly & _).
  induction fn; intros args' kw h H; simpl; try exact H.
  - destruct (h !! l0) as [[?|?]|]; try exact H. now apply Happly.
  - destruct (w_callable W o); [now apply Happly|exact H].
  - now apply IHfn.
Qed.

Lemma preserves_invoke fn args kw : preserves P (invoke W fn args kw).
Proof.
  unfold invoke. apply preserves_bind; [apply preserves_log|]. intros _.
  apply preserves_extern. intros h. apply apply_frame.
Qed.

Lemma preserves_kwargs_expand fixed cfg : preserves P (kwargs_expand fixed cfg).
Proof.
  intros st H.
  destruct (kwargs_expand fixed cfg st) as [r st'] eqn:E.
  now destruct (kwargs_expand_inv fixed cfg st r st' E) as [-> _].
Qed.

Lemma preserves_resolve prefix frame s :
  preserves P (resolve W prefix frame s).
Proof.
  destruct HW as (Himport & Heval & _).
  unfold resolve. destruct (split_module_name s) as [mp cn].
  assert (He : forall src locals,
            preserves P (log (EvEval src) ;;; extern (w_eval W src locals))).
  { intros src locals. apply preserves_bind; [apply preserves_log|]. intros _.
    apply preserves_extern. apply Heval. }
  destruct (truthy mp).
  - unfold dynamic_import. apply preserves_bind; [apply preserves_log|].
    intros _. apply preserves_extern. apply Himport.
  - unfold py_eval.
    destruct (attr_ref _) as [[root attr]|]; [|apply He].
    destruct (global_module root); [|apply He].
    destruct (w_attr W _ attr); [apply preserves_ret|apply preserves_raise].
Qed.

Lemma preserves_partial fn kw : preserves P (partial W fn kw).
Proof.
  intros st H. unfold partial.
  destruct (callable W (heap st) fn); [|exact H].
  now destruct fn.
Qed.

Lemma preserves_getitem container key : preserves P (getitem W container key).
Proof.
  destruct HW as (_ & _ & _ & Hget & _).
  unfold getitem. apply preserves_bind; [apply preserves_log|]. intros _.
  intros st H. destruct container; try exact H.
  - destruct (heap st !! l0) as [[es|?]|]; try exact H.
    now destruct (alist_lookup key es).
  - apply (preserves_extern P (w_getitem W o key) (Hget o key)), H.
Qed.

(** Loading writes the module object only, and a module object is not the
    dict at [l]. *)
Lemma preserves_load_state_dict net sd strict :
  preserves P (load_state_dict W net sd strict).
Proof.
  destruct HW as (_ & _ & _ & _ & Hload).
  unfold load_state_dict. apply preserves_bind; [apply preserves_log|].
  intros _ st H. destruct net; try exact H.
  - destruct (heap st !! l0) as [[?|params]|] eqn:El0; try exact H.
    unfold module_load. destruct sd; try exact H.
    destruct (heap st !! l1) as [[es|?]|]; try exact H.
    assert (Hne : l0 <> l).
    { intros ->. unfold P, dict_at in H. congruence. }
    assert (P (<[l0 := HModule (copy_params params es)]> (heap st))).
    { unfold P, dict_at. now rewrite lookup_insert_ne. }
    now destruct (strict && key_mismatch params es).
  - apply (preserves_extern P (w_load W o sd strict) (Hload o sd strict)), H.
Qed.

Lemma preserves_get_data fn cfg : preserves P (get_data W fn cfg).
Proof.
  unfold get_data. apply preserves_bind.
  - destruct fn; try apply preserves_ret. apply preserves_resolve.
  - intros f. apply preserves_bind; [apply preserves_kwargs_expand|].
    intros kw. apply preserves_invoke.
Qed.

Lemma preserves_get_model fn cfg dl seed sd strict :
  preserves P (get_model W fn cfg dl seed sd strict).
Proof.
  unfold get_model. apply preserves_bind.
  - destruct fn; try apply preserves_ret. apply preserves_resolve.
  - intros f. apply preserves_bind; [apply preserves_kwargs_expand|].
    intros kw. apply preserves_bind; [apply preserves_invoke|].
    intros net. apply preserves_bind; [|intros _; apply preserves_ret].
    destruct (is_none sd);
      [apply preserves_ret|apply preserves_load_state_dict].
Qed.

Lemma preserves_get_trainer fn cfg : preserves P (get_trainer W fn cfg).
Proof.
  assert (Hp : forall f, preserves P
            (if negb (is_none cfg)
             then kw <- kwargs_expand [] cfg ;;
                  trainer_fn <- partial W f kw ;; ret trainer_fn
             else ret VNone)).
  { intros f. destruct (negb (is_none cfg)); [|apply preserves_ret].
    apply preserves_bind; [apply preserves_kwargs_expand|].
    intros kw. apply preserves_bind; [apply preserves_partial|].
    intros p. apply preserves_ret. }
  unfold get_trainer, print. apply preserves_bind; [apply preserves_log|].
  intros _. destruct fn; try apply Hp.
  apply preserves_bind; [apply preserves_resolve|].
  intros f. apply preserves_bind; [apply preserves_kwargs_expand|].
  intros kw. apply preserves_invoke.
Qed.

Lemma preserves_get_all_parts dfn dcfg mfn mcfg seed key sd strict tfn tcfg :
  preserves P (get_all_parts W dfn dcfg mfn mcfg seed key sd strict tfn tcfg).
Proof.
  unfold get_all_parts.
  apply preserves_bind; [apply preserves_get_data|]. intros dls.
  apply preserves_bind; [apply preserves_getitem|]. intros dl.
  apply preserves_bind; [apply preserves_get_model|]. intros model.
  destruct (negb (is_none tfn)); [|apply preserves_ret].
  apply preserves_bind; [apply preserves_get_trainer|]. intros t.
  apply preserves_ret.
Qed.

End Frame.

(** The demo world allocates but never writes an existing object. *)
Lemma demo_alloc_frame l entries o h :
  dict_at l entries h -> dict_at l entries (snd (Demo.alloc o h)).
Proof.
  unfold dict_at, Demo.alloc. simpl. intros H.
  rewrite lookup_insert_ne; [exact H|].
  intros Heq. apply (is_fresh (dom h)). rewrite Heq.
  apply elem_of_dom. now rewrite H.
Qed.

Lemma demo_world_frame l entries : world_frame Demo.world l entries.
Proof.
  repeat split; simpl; intros; try assumption.
  - unfold Demo.import. now repeat case_match.
  - unfold Demo.eval. now repeat case_match.
  - unfold Demo.call.
    repeat case_match; simpl; try assumption; now apply demo_alloc_frame.
Qed.

(** ** Configurations are left unchanged *)

(** C10: a dict of the store that the collaborators leave as it is (in
    particular a configuration the caller passes in) holds the same entries
    after [get_data], [get_model], [get_trainer] and [get_all_parts] as
    before: keyword expansion and partial application copy the entries out
    of it, and the only write the builder causes goes to the module
    object. *)
Theorem configuration_unchanged W l entries st :
  world_frame W l entries ->
  dict_at l entries (heap st) ->
  (forall fn cfg, dict_at l entries (heap (snd (get_data W fn cfg st))))
  /\ (forall fn cfg dl seed sd strict,
        dict_at l entries
          (heap (snd (get_model W fn cfg dl seed sd strict st))))
  /\ (forall fn cfg, dict_at l entries (heap (snd (get_trainer W fn cfg st))))
  /\ (forall dfn dcfg mfn mcfg seed key sd strict tfn tcfg,
        dict_at l entries
          (heap (snd (get_all_parts W dfn dcfg mfn mcfg seed key sd strict
                        tfn tcfg st)))).
Proof.
  intros HW H. repeat split; intros.
  - now apply preserves_get_data.
  - now apply preserves_get_model.
  - now apply preserves_get_trainer.
  - now apply preserves_get_all_parts.
Qed.

Lemma configuration_unchanged_witness :
  dict_at 2%positive [("hidden", VInt 64)]
    (heap (snd (get_all_parts Demo.world (VStr "mnist") (VRef 1%positive)
                  (VStr "mlp") (VRef 2%positive) (VInt 3) "train"
                  (VRef 4%positive) false (VStr "sgd") (VRef 3%positive)
                  Demo.state0))).
Proof.
  apply (configuration_unchanged Demo.world 2%positive [("hidden", VInt 64)]
           Demo.state0).
  - apply demo_world_frame.
  - reflexivity.
Defined.

(** ** Model resolution *)


Lemma get_model_resolution W fn cfg dl seed sd strict :
  get_model W fn cfg dl seed sd strict =
    (model_fn <- resolved_model_fn W fn cfg dl seed sd strict ;;
     kw <- kwargs_expand [("seed", seed)] cfg ;;
     net <- invoke W model_fn [dl] kw ;;
     (if is_none sd then ret VNone else load_state_dict W net sd strict) ;;;
     ret net).
Proof. reflexivity. Qed.

Lemma resolved_model_fn_no_call W fn cfg dl seed sd strict st :
  emits (fun ev => is_call ev = false)
    (resolved_model_fn W fn cfg dl seed sd strict) st.
Proof.
  unfold resolved_model_fn. destruct fn; try apply emits_ret.
  now apply emits_resolve.
Qed.




(** ** Loading a state dict *)

(** [get_model] is the construction followed, when a state dict is given,
    by the load into what was constructed. *)
Lemma get_model_build W fn cfg dl seed sd strict st :
  get_model W fn cfg dl seed sd strict st =
    match build_model W fn cfg dl seed sd strict st with
    | (Ret net, st1) =>
        if is_none sd then (Ret net, st1)
        else match load_state_dict W net sd strict st1 with
             | (Ret _, st2) => (Ret net, st2)
             | (Raise e, st2) => (Raise e, st2)
             end
    | (Raise e, st1) => (Raise e, st1)
    end.
Proof.
  rewrite get_model_resolution. unfold build_model, bind.
  destruct (resolved_model_fn W fn cfg dl seed sd strict st) as [[f|e] sa];
    [|reflexivity].
  destruct (kwargs_expand _ cfg sa) as [[kw|e] sb]; [|reflexivity].
  destruct (invoke W f [dl] kw sb) as [[net|e] sc]; [|reflexivity].
  destruct (is_none sd); [reflexivity|].
  now destruct (load_state_dict W net sd strict sc) as [[v|e] st2].
Qed.

Lemma load_state_dict_module W l l' params entries strict st :
  heap st !! l = Some (HModule params) ->
  heap st !! l' = Some (HDict entries) ->
  load_state_dict W (VRef l) (VRef l') strict st =
    (if strict && key_mismatch params entries
     then Raise (LoadError (missing_keys params entries)
                           (unexpected_keys params entries))
     else Ret VNone,
     {| heap := <[l := HModule (copy_params params entries)]> (heap st);
        trace := trace st ++ [EvLoad (VRef l) (VRef l') strict] |}).
Proof.
  intros Hl Hl'. unfold load_state_dict. rewrite bind_log. simpl.
  rewrite Hl. unfold module_load. simpl. rewrite Hl'.
  now destruct (strict && key_mismatch params entries).
Qed.

(** C5: in a run of [get_model] with a state dict, when the model the run
    constructs is a module, the blob is a dict and their parameter names do
    not match, the run raises the load error if [strict] is true and returns
    the model if [strict] is false; without a blob [get_model] makes no
    load at all, whatever [strict] is. *)
Theorem get_model_state_dict_strictness W fn cfg dl seed st :
  (forall strict l l' params entries st1,
     build_model W fn cfg dl seed (VRef l') strict st = (Ret (VRef l), st1) ->
     heap st1 !! l = Some (HModule params) ->
     heap st1 !! l' = Some (HDict entries) ->
     key_mismatch params entries = true ->
     get_model W fn cfg dl seed (VRef l') strict st =
       (if strict
        then Raise (LoadError (missing_keys params entries)
                              (unexpected_keys params entries))
        else Ret (VRef l),
        {| heap := <[l := HModule (copy_params params entries)]> (heap st1);
           trace := trace st1 ++ [EvLoad (VRef l) (VRef l') strict] |}))
  /\ (forall strict,
        emits (fun ev => forall net sd b, ev <> EvLoad net sd b)
          (get_model W fn cfg dl seed VNone strict) st).
Proof.
  split.
  - intros strict l l' params entries st1 Hbuild Hl Hl' Hmis.
    rewrite get_model_build, Hbuild. simpl is_none. cbv iota.
    rewrite (load_state_dict_module W l l' params entries strict st1 Hl Hl').
    rewrite Hmis. now destruct strict.
  - intros strict. rewrite get_model_resolution.
    apply emits_bind.
    { unfold resolved_model_fn. destruct fn; try apply emits_ret.
      now apply emits_resolve. }
    intros f st1 _. apply emits_bind; [apply emits_kwargs_expand|].
    intros kw st2 _. apply emits_bind; [now apply emits_invoke|].
    intros net st3 _. apply emits_bind; [|intros; apply emits_ret].
    apply emits_ret.
Qed.

Lemma get_model_state_dict_strictness_witness :
  get_model Demo.world (VStr "mlp") (VRef 2%positive) (VObj "train_loader")
    (VInt 3) (VRef 4%positive) true Demo.state0 =
    (Raise (LoadError ["bias"] ["extra"]),
     {| heap := <[5%positive := HModule [("weight", VInt 7); ("bias", VInt 0)]]>
                  (<[5%positive := Demo.network]> Demo.store0);
        trace := [EvCall (VObj "mlp") [VObj "train_loader"]
                    [("seed", VInt 3); ("hidden", VInt 64)];
                  EvLoad (VRef 5%positive) (VRef 4%positive) true] |})
  /\ get_model Demo.world (VStr "mlp") (VRef 2%positive) (VObj "train_loader")
    (VInt 3) (VRef 4%positive) false Demo.state0 =
    (Ret (VRef 5%positive),
     {| heap := <[5%positive := HModule [("weight", VInt 7); ("bias", VInt 0)]]>
                  (<[5%positive := Demo.network]> Demo.store0);
        trace := [EvCall (VObj "mlp") [VObj "train_loader"]
                    [("seed", VInt 3); ("hidden", VInt 64)];
                  EvLoad (VRef 5%positive) (VRef 4%positive) false] |}).
Proof.
  pose proof (fun strict =>
                proj1 (get_model_state_dict_strictness Demo.world (VStr "mlp")
                         (VRef 2%positive) (VObj "train_loader") (VInt 3)
                         Demo.state0)
                  strict 5%positive 4%positive
                  [("weight", VInt 0); ("bias", VInt 0)]
                  [("weight", VInt 7); ("extra", VInt 9)]
                  {| heap := <[5%positive := Demo.network]> Demo.store0;
                     trace := [EvCall (VObj "mlp") [VObj "train_loader"]
                                 [("seed", VInt 3); ("hidden", VInt 64)]] |})
    as H.
  split.
  - rewrite (H true ltac:(vm_compute; reflexivity) eq_refl eq_refl eq_refl).
    reflexivity.
  - rewrite (H false ltac:(vm_compute; reflexivity) eq_refl eq_refl eq_refl).
    reflexivity.
Defined.

(** ** The aggregate *)

Lemma dynamic_import_run W mp cn st :
  dynamic_import W mp cn st =
    (fst (w_import W mp cn (heap st)),
     {| heap := snd (w_import W mp cn (heap st));
        trace := trace st ++ [EvImport mp cn] |}).
Proof.
  unfold dynamic_import. rewrite bind_log. unfold extern. simpl.
  now destruct (w_import W mp cn (heap st)).
Qed.

Lemma getitem_dict W l items key v st :
  heap st !! l = Some (HDict items) ->
  alist_lookup key items = Some v ->
  getitem W (VRef l) key st = (Ret v, record st (EvGetItem (VRef l) key)).
Proof.
  intros Hl Hk. unfold getitem. rewrite bind_log. simpl. now rewrite Hl, Hk.
Qed.

(** C6: the end-to-end example of the specification.  With the two
    configuration dicts in the store, the dynamic loader giving
    [make_loaders] for [("foo.bar", "make_loaders")] and [make_model] for
    [("baz", "make_model")], and no trainer, [get_all_parts] imports
    [make_loaders], calls it with [batch_size=32], takes the ["train"] entry
    of the dict it returns, imports [make_model], calls it on that entry
    with [seed=None, hidden=64], and returns the pair of the loaders and the
    model; it does nothing else. *)
Theorem get_all_parts_end_to_end W l1 l2 make_loaders ld items entry
    make_model model st h1 h2 h3 h4 :
  w_import W "foo.bar" "make_loaders" (heap st) = (Ret make_loaders, h1) ->
  h1 !! l1 = Some (HDict [("batch_size", VInt 32)]) ->
  apply W make_loaders [] [("batch_size", VInt 32)] h1 = (Ret (VRef ld), h2) ->
  h2 !! ld = Some (HDict items) ->
  alist_lookup "train" items = Some entry ->
  w_import W "baz" "make_model" h2 = (Ret make_model, h3) ->
  h3 !! l2 = Some (HDict [("hidden", VInt 64)]) ->
  apply W make_model [entry] [("seed", VNone); ("hidden", VInt 64)] h3
    = (Ret model, h4) ->
  get_all_parts W (VStr "foo.bar.make_loaders") (VRef l1)
    (VStr "baz.make_model") (VRef l2) VNone "train" VNone true VNone VNone st
  = (Ret (VTuple [VRef ld; model]),
     {| heap := h4;
        trace := trace st ++
          [EvImport "foo.bar" "make_loaders";
           EvCall make_loaders [] [("batch_size", VInt 32)];
           EvGetItem (VRef ld) "train";
           EvImport "baz" "make_model";
           EvCall make_model [entry] [("seed", VNone); ("hidden", VInt 64)]]
     |}).
Proof.
  intros Himp1 Hcfg1 Hcall1 Hld Htrain Himp2 Hcfg2 Hcall2.
  unfold get_all_parts.
  (* get_data *)
  assert (Hdata : get_data W (VStr "foo.bar.make_loaders") (VRef l1) st =
            (Ret (VRef ld),
             {| heap := h2;
                trace := (trace st ++ [EvImport "foo.bar" "make_loaders"])
                         ++ [EvCall make_loaders [] [("batch_size", VInt 32)]]
             |})).
  { unfold get_data.
    change (resolve W "datasets." _ "foo.bar.make_loaders")
      with (dynamic_import W "foo.bar" "make_loaders").
    rewrite (bind_ret _ _ st make_loaders
               {| heap := h1;
                  trace := trace st ++ [EvImport "foo.bar" "make_loaders"] |});
      [|now rewrite dynamic_import_run, Himp1].
    rewrite (bind_ret _ _ _ _ _
               (kwargs_expand_nil l1 [("batch_size", VInt 32)]
                  {| heap := h1;
                     trace := trace st ++ [EvImport "foo.bar" "make_loaders"]
                  |} Hcfg1)).
    rewrite invoke_run. simpl heap. now rewrite Hcall1. }
  rewrite (bind_ret _ _ _ _ _ Hdata).
  rewrite (bind_ret _ _ _ _ _
             (getitem_dict W ld items "train" entry
                {| heap := h2;
                   trace := (trace st ++ [EvImport "foo.bar" "make_loaders"])
                            ++ [EvCall make_loaders []
                                  [("batch_size", VInt 32)]] |} Hld Htrain)).
  (* get_model *)
  set (st2 := record _ (EvGetItem (VRef ld) "train")).
  assert (Hmodel : get_model W (VStr "baz.make_model") (VRef l2) entry VNone
                     VNone true st2 =
            (Ret model,
             {| heap := h4;
                trace := (trace st2 ++ [EvImport "baz" "make_model"])
                         ++ [EvCall make_model [entry]
                               [("seed", VNone); ("hidden", VInt 64)]] |})).
  { unfold get_model.
    change (resolve W "models." _ "baz.make_model")
      with (dynamic_import W "baz" "make_model").
    rewrite (bind_ret _ _ st2 make_model
               {| heap := h3;
                  trace := trace st2 ++ [EvImport "baz" "make_model"] |});
      [|rewrite dynamic_import_run; simpl heap; now rewrite Himp2].
    rewrite (bind_ret _ _ _ _ _
               (kwargs_expand_dict [("seed", VNone)] l2 [("hidden", VInt 64)]
                  {| heap := h3;
                     trace := trace st2 ++ [EvImport "baz" "make_model"] |}
                  Hcfg2 eq_refl)).
    simpl app. unfold bind. rewrite invoke_run. simpl heap.
    now rewrite Hcall2. }
  rewrite (bind_ret _ _ _ _ _ Hmodel).
  simpl. unfold ret. now rewrite <- !app_assoc.
Qed.

Lemma get_all_parts_end_to_end_witness :
  get_all_parts Demo.world (VStr "foo.bar.make_loaders") (VRef 1%positive)
    (VStr "baz.make_model") (VRef 2%positive) VNone "train" VNone true
    VNone VNone Demo.state0
  = (Ret (VTuple [VRef 5%positive; VRef 6%positive]),
     {| heap := <[6%positive := Demo.network]>
                  (<[5%positive := Demo.loaders]> Demo.store0);
        trace :=
          [EvImport "foo.bar" "make_loaders";
           EvCall (VObj "make_loaders") [] [("batch_size", VInt 32)];
           EvGetItem (VRef 5%positive) "train";
           EvImport "baz" "make_model";
           EvCall (VObj "make_model") [VObj "train_loader"]
             [("seed", VNone); ("hidden", VInt 64)]] |}).
Proof.
  apply (get_all_parts_end_to_end Demo.world 1%positive 2%positive
           (VObj "make_loaders") 5%positive
           [("train", VObj "train_loader"); ("validation", VObj "val_loader")]
           (VObj "train_loader") (VObj "make_model") (VRef 6%positive)
           Demo.state0 Demo.store0
           (<[5%positive := Demo.loaders]> Demo.store0)
           (<[5%positive := Demo.loaders]> Demo.store0)
           (<[6%positive := Demo.network]>
              (<[5%positive := Demo.loaders]> Demo.store0)));
    vm_compute; reflexivity.
Defined.

(** C7: [get_all_parts] runs the data step, the subscript, the model step
    and, when a trainer identifier is given, the trainer step, in this
    order.  The first step that raises ends it: the result is that very
    exception, in the state that step left.  When none raises, the result is
    the triple of dataloaders, model and trainer if the trainer identifier
    is not [None], and the pair of dataloaders and model otherwise. *)
Theorem get_all_parts_result_and_errors W dataset_fn dataset_config model_fn
    model_config seed dl_key state_dict strict trainer_fn trainer_config st :
  get_all_parts W dataset_fn dataset_config model_fn model_config seed dl_key
    state_dict strict trainer_fn trainer_config st =
  match get_data W dataset_fn dataset_config st with
  | (Raise e, st1) => (Raise e, st1)
  | (Ret dataloaders, st1) =>
      match getitem W dataloaders dl_key st1 with
      | (Raise e, st2) => (Raise e, st2)
      | (Ret dl, st2) =>
          match get_model W model_fn model_config dl seed state_dict strict
                  st2 with
          | (Raise e, st3) => (Raise e, st3)
          | (Ret model, st3) =>
              match trainer_fn with
              | VNone => (Ret (VTuple [dataloaders; model]), st3)
              | _ =>
                  match get_trainer W trainer_fn trainer_config st3 with
                  | (Raise e, st4) => (Raise e, st4)
                  | (Ret trainer, st4) =>
                      (Ret (VTuple [dataloaders; model; trainer]), st4)
                  end
              end
          end
      end
  end.
Proof.
  unfold get_all_parts, bind.
  destruct (get_data _ _ _ st) as [[dataloaders|e] st1]; [|reflexivity].
  destruct (getitem _ _ _ st1) as [[dl|e] st2]; [|reflexivity].
  destruct (get_model _ _ _ _ _ _ _ st2) as [[model|e] st3]; [|reflexivity].
  destruct trainer_fn; simpl; try reflexivity;
    now destruct (get_trainer _ _ _ st3) as [[trainer|e] st4].
Qed.

(** ** Further properties of the builder *)

Section MoreTraces.

Variable W : world.
Variable Q : event -> Prop.
Hypothesis Qimport : forall mp cn, Q (EvImport mp cn).
Hypothesis Qeval : forall src, Q (EvEval src).

Lemma emits_getitem container key st :
  Q (EvGetItem container key) -> emits Q (getitem W container key) st.
Proof.
  intros H. unfold getitem.
  apply emits_bind; [now apply emits_log|]. intros _ st' _.
  apply emits_same. destruct container; try reflexivity.
  - destruct (heap st' !! l) as [[items|?]|]; try reflexivity.
    now destruct (alist_lookup key items).
  - unfold extern. now destruct (w_getitem W o key (heap st')).
Qed.

Lemma emits_get_data fn cfg st :
  (forall f kw, Q (EvCall f [] kw)) -> emits Q (get_data W fn cfg) st.
Proof.
  intros Hcall. unfold get_data. apply emits_bind.
  { destruct fn; try apply emits_ret. now apply emits_resolve. }
  intros f st1 _. apply emits_bind; [apply emits_kwargs_expand|].
  intros kw st2 _. now apply emits_invoke.
Qed.

Lemma emits_get_model fn cfg dl seed sd strict st :
  (forall f kw, Q (EvCall f [dl] kw)) ->
  (forall net, Q (EvLoad net sd strict)) ->
  emits Q (get_model W fn cfg dl seed sd strict) st.
Proof.
  intros Hcall Hload. unfold get_model. apply emits_bind.
  { destruct fn; try apply emits_ret. now apply emits_resolve. }
  intros f st1 _. apply emits_bind; [apply emits_kwargs_expand|].
  intros kw st2 _. apply emits_bind; [now apply emits_invoke|].
  intros net st3 _. apply emits_bind; [|intros; apply emits_ret].
  destruct (is_none sd); [apply emits_ret|].
  now apply emits_load_state_dict.
Qed.

(** [get_trainer] prints, and what follows satisfies [Q] when the calls
    without positional arguments do. *)
Lemma get_trainer_after_print fn cfg st :
  (forall f kw, Q (EvCall f [] kw)) ->
  exists evs,
    trace (snd (get_trainer W fn cfg st)) = trace st ++ EvPrint cfg :: evs
    /\ Forall Q evs.
Proof.
  intros Hcall.
  assert (Hp : forall f st', emits Q
            (if negb (is_none cfg)
             then kw <- kwargs_expand [] cfg ;;
                  trainer_fn <- partial W f kw ;; ret trainer_fn
             else ret VNone) st').
  { intros f st'. destruct (negb (is_none cfg)); [|apply emits_ret].
    apply emits_bind; [apply emits_kwargs_expand|].
    intros kw st1 _. apply emits_bind; [|intros; apply emits_ret].
    apply emits_same. unfold partial.
    destruct (callable W (heap st1) f); [|reflexivity]. now destruct f. }
  assert (Hbody : exists evs,
            trace (snd (get_trainer W fn cfg st)) =
              trace (record st (EvPrint cfg)) ++ evs /\ Forall Q evs).
  { unfold get_trainer, print. rewrite bind_log.
    destruct fn; try apply Hp.
    apply emits_bind; [now apply emits_resolve|].
    intros f st1 _. apply emits_bind; [apply emits_kwargs_expand|].
    intros kw st2 _. now apply emits_invoke. }
  destruct Hbody as (evs & Ht & Hq). exists evs. split; [|exact Hq].
  rewrite Ht. simpl. now rewrite <- app_assoc.
Qed.

End MoreTraces.

Lemma resolved_data_fn_no_call W fn cfg st :
  emits (fun ev => is_call ev = false) (resolved_data_fn W fn cfg) st.
Proof.
  unfold resolved_data_fn. destruct fn; try apply emits_ret.
  now apply emits_resolve.
Qed.

Lemma get_data_resolution W fn cfg :
  get_data W fn cfg =
    (dataset_fn <- resolved_data_fn W fn cfg ;;
     kw <- kwargs_expand [] cfg ;;
     invoke W dataset_fn [] kw).
Proof. reflexivity. Qed.

Lemma kwargs_expand_not_mapping fixed cfg st :
  not_mapping cfg = true ->
  kwargs_expand fixed cfg st = (Raise TypeError, st).
Proof. now destruct cfg. Qed.

(** X1: [get_data]: in every run either the function raises without having
    called anything (the resolution failed or the configuration is no
    dict), or it makes exactly one call, its last step: the resolved
    function, with no positional argument and exactly the entries of the
    configuration dict as keywords; the outcome of that call is the result. *)
Theorem get_data_calling_convention W fn cfg st :
  (exists e st' evs,
     get_data W fn cfg st = (Raise e, st')
     /\ trace st' = trace st ++ evs
     /\ Forall (fun ev => is_call ev = false) evs)
  \/ (exists f st1 l entries evs0,
        resolved_data_fn W fn cfg st = (Ret f, st1)
        /\ cfg = VRef l
        /\ heap st1 !! l = Some (HDict entries)
        /\ trace st1 = trace st ++ evs0
        /\ Forall (fun ev => is_call ev = false) evs0
        /\ get_data W fn cfg st =
             (fst (apply W f [] entries (heap st1)),
              {| heap := snd (apply W f [] entries (heap st1));
                 trace := trace st1 ++ [EvCall f [] entries] |})).
Proof.
  destruct (resolved_data_fn_no_call W fn cfg st) as (evs0 & Ht0 & Hq0).
  rewrite get_data_resolution.
  destruct (resolved_data_fn W fn cfg st) as [[f|e] st1] eqn:Hres; simpl in Ht0.
  - destruct (kwargs_expand [] cfg st1) as [[kw|e] st2] eqn:Hkw.
    + destruct (kwargs_expand_inv _ _ _ _ _ Hkw) as [-> Hinv].
      destruct (Hinv kw eq_refl) as (l & entries & -> & Hl & ->).
      right. exists f, st1, l, entries, evs0.
      rewrite (bind_ret _ _ _ _ _ Hres), (bind_ret _ _ _ _ _ Hkw).
      simpl app. rewrite invoke_run. repeat split; assumption.
    + destruct (kwargs_expand_inv _ _ _ _ _ Hkw) as [-> _].
      left. exists e, st1, evs0.
      rewrite (bind_ret _ _ _ _ _ Hres), (bind_raise _ _ _ _ _ Hkw).
      repeat split; assumption.
  - left. exists e, st1, evs0.
    rewrite (bind_raise _ _ _ _ _ Hres). repeat split; assumption.
Qed.

(** X2: A configuration that is no mapping ([None], a number, a string, a tuple,
    a partial object) makes [get_data] and [get_model] raise: the exception
    of the resolution if that fails, [TypeError] otherwise, in the state the
    resolution left, so that the resolved function is never called. *)
Theorem non_mapping_config_raises W fn cfg dl seed sd strict st :
  not_mapping cfg = true ->
  get_data W fn cfg st =
    match resolved_data_fn W fn cfg st with
    | (Ret _, st1) => (Raise TypeError, st1)
    | (Raise e, st1) => (Raise e, st1)
    end
  /\ get_model W fn cfg dl seed sd strict st =
    match resolved_model_fn W fn cfg dl seed sd strict st with
    | (Ret _, st1) => (Raise TypeError, st1)
    | (Raise e, st1) => (Raise e, st1)
    end
  /\ emits (fun ev => is_call ev = false) (get_data W fn cfg) st
  /\ emits (fun ev => is_call ev = false)
       (get_model W fn cfg dl seed sd strict) st.
Proof.
  intros Hcfg.
  assert (Hd : get_data W fn cfg st =
    match resolved_data_fn W fn cfg st with
    | (Ret _, st1) => (Raise TypeError, st1)
    | (Raise e, st1) => (Raise e, st1)
    end).
  { rewrite get_data_resolution. unfold bind at 1.
    destruct (resolved_data_fn W fn cfg st) as [[f|e] st1]; [|reflexivity].
    unfold bind. now rewrite (kwargs_expand_not_mapping [] cfg st1 Hcfg). }
  assert (Hm : get_model W fn cfg dl seed sd strict st =
    match resolved_model_fn W fn cfg dl seed sd strict st with
    | (Ret _, st1) => (Raise TypeError, st1)
    | (Raise e, st1) => (Raise e, st1)
    end).
  { rewrite get_model_resolution. unfold bind at 1.
    destruct (resolved_model_fn W fn cfg dl seed sd strict st) as [[f|e] st1]; [|reflexivity].
    unfold bind. now rewrite (kwargs_expand_not_mapping _ cfg st1 Hcfg). }
  repeat split; [exact Hd|exact Hm| |].
  - destruct (resolved_data_fn_no_call W fn cfg st) as (evs & Ht & Hq).
    exists evs. split; [|exact Hq]. rewrite Hd.
    now destruct (resolved_data_fn W fn cfg st) as [[f|e] st1].
  - destruct (resolved_model_fn_no_call W fn cfg dl seed sd strict st) as (evs & Ht & Hq).
    exists evs. split; [|exact Hq]. rewrite Hm.
    now destruct (resolved_model_fn W fn cfg dl seed sd strict st) as [[f|e] st1].
Qed.

Lemma non_mapping_config_raises_witness :
  get_data Demo.world (VStr "mnist") VNone Demo.state0
    = (Raise TypeError, Demo.state0)
  /\ get_model Demo.world (VStr "mlp") (VInt 3) (VObj "train_loader") VNone
       VNone true Demo.state0
    = (Raise TypeError, Demo.state0).
Proof.
  pose proof (non_mapping_config_raises Demo.world (VStr "mnist") VNone
                VNone VNone VNone true Demo.state0 eq_refl) as Hd.
  pose proof (non_mapping_config_raises Demo.world (VStr "mlp") (VInt 3)
                (VObj "train_loader") VNone VNone true Demo.state0 eq_refl)
    as Hm.
  split.
  - rewrite (proj1 Hd). reflexivity.
  - rewrite (proj1 (proj2 Hm)). reflexivity.
Defined.

(** X3: [get_trainer] prints its configuration before anything else, and
    prints nothing else, whatever the identifier and the configuration are
    and whether it returns or raises. *)
Theorem get_trainer_prints_first W fn cfg st :
  exists evs,
    trace (snd (get_trainer W fn cfg st)) = trace st ++ EvPrint cfg :: evs
    /\ Forall (fun ev => is_print ev = false) evs.
Proof. now apply get_trainer_after_print. Qed.

(** X4: [get_trainer] never passes a positional argument: every call it makes
    has keywords only.  It hands neither a model nor dataloaders to the
    trainer function. *)
Theorem get_trainer_no_positional W fn cfg st :
  emits (fun ev => forall f args kw, ev = EvCall f args kw -> args = [])
    (get_trainer W fn cfg) st.
Proof.
  destruct (get_trainer_after_print W
              (fun ev => forall f args kw, ev = EvCall f args kw -> args = [])
              ltac:(discriminate) ltac:(discriminate) fn cfg st
              ltac:(now intros f kw f' args kw' [= _ <- _]))
    as (evs & Ht & Hq).
  exists (EvPrint cfg :: evs). split; [exact Ht|].
  constructor; [discriminate|exact Hq].
Qed.

(** X5: An identifier that is neither a string nor callable, given with a
    configuration dict, makes [get_trainer] raise [TypeError]: the partial
    object cannot be made.  Nothing but the print happens. *)
Theorem get_trainer_not_callable W fn l entries st :
  (forall s, fn <> VStr s) ->
  callable W (heap st) fn = false ->
  heap st !! l = Some (HDict entries) ->
  get_trainer W fn (VRef l) st
  = (Raise TypeError, record st (EvPrint (VRef l))).
Proof.
  intros Hstr Hcall Hcfg.
  assert (Hrun : get_trainer W fn (VRef l) st =
                 (p <- partial W fn entries ;; ret p)
                   (record st (EvPrint (VRef l)))).
  { unfold get_trainer, print. rewrite bind_log.
    destruct fn; try (now destruct (Hstr s)); simpl;
      now rewrite (bind_ret _ _ _ _ _
                     (kwargs_expand_nil l entries (record st _) Hcfg)). }
  rewrite Hrun. unfold bind, partial. simpl heap. now rewrite Hcall.
Qed.

Lemma get_trainer_not_callable_witness :
  get_trainer Demo.world (VInt 7) (VRef 3%positive) Demo.state0
  = (Raise TypeError, record Demo.state0 (EvPrint (VRef 3%positive))).
Proof.
  apply (get_trainer_not_callable Demo.world (VInt 7) 3%positive
           [("epochs", VInt 5)] Demo.state0).
  - discriminate.
  - reflexivity.
  - reflexivity.
Defined.

(** *** Keyword dictionaries *)

Lemma alist_set_set a v w (x : kwargs) :
  alist_set a v (alist_set a w x) = alist_set a v x.
Proof.
  induction x as [|[c u] r IH]; simpl.
  - now rewrite String.eqb_refl.
  - destruct (String.eqb_spec a c) as [->|Hne]; simpl.
    + now rewrite String.eqb_refl.
    + destruct (String.eqb_spec a c); [contradiction|]. now rewrite IH.
Qed.

Lemma alist_set_keys a b w (x : kwargs) :
  In a (map fst (alist_set b w x)) <-> a = b \/ In a (map fst x).
Proof.
  induction x as [|[c u] r IH]; simpl.
  - intuition.
  - destruct (String.eqb_spec b c) as [->|Hne]; simpl.
    + intuition.
    + rewrite IH. intuition.
Qed.

(** Replacing the value of a key that is there commutes with setting
    another key. *)
Lemma alist_set_comm a v b w (x : kwargs) :
  a <> b -> In a (map fst x) ->
  alist_set a v (alist_set b w x) = alist_set b w (alist_set a v x).
Proof.
  intros Hne. induction x as [|[c u] r IH]; simpl; [contradiction|].
  intros Hin.
  destruct (String.eqb_spec a c) as [->|Hac];
    destruct (String.eqb_spec b c) as [->|Hbc]; simpl.
  - contradiction.
  - rewrite String.eqb_refl.
    destruct (String.eqb_spec b c); [contradiction|reflexivity].
  - rewrite String.eqb_refl.
    destruct (String.eqb_spec a c); [contradiction|reflexivity].
  - destruct (String.eqb_spec a c); [contradiction|].
    destruct (String.eqb_spec b c); [contradiction|].
    rewrite IH; [reflexivity|]. destruct Hin as [Hin|Hin]; [|exact Hin].
    now destruct Hac.
Qed.

Lemma kw_merge_set_present a v (m z : kwargs) :
  ~ In a (map fst m) -> In a (map fst z) ->
  kw_merge (alist_set a v z) m = alist_set a v (kw_merge z m).
Proof.
  unfold kw_merge. revert z.
  induction m as [|[b w] r IH]; intros z Hm Hz; simpl; [reflexivity|].
  simpl in Hm.
  rewrite <- (alist_set_comm a v b w z); [|intuition|exact Hz].
  apply IH; [intuition|]. apply alist_set_keys. now right.
Qed.

Lemma kw_merge_set a v (m k0 : kwargs) :
  List.NoDup (map fst m) ->
  kw_merge k0 (alist_set a v m) = alist_set a v (kw_merge k0 m).
Proof.
  revert k0. induction m as [|[c u] r IH]; intros k0 Hnd; [reflexivity|].
  simpl in Hnd. apply List.NoDup_cons_iff in Hnd as [Hc Hr].
  simpl. destruct (String.eqb_spec a c) as [->|Hac].
  - unfold kw_merge. simpl. fold (kw_merge (alist_set c v k0) r).
    fold (kw_merge (alist_set c u k0) r).
    rewrite <- (kw_merge_set_present c v r (alist_set c u k0) Hc);
      [|apply alist_set_keys; now left].
    now rewrite alist_set_set.
  - unfold kw_merge. simpl. apply (IH (alist_set c u k0) Hr).
Qed.

Lemma alist_set_nodup a v (x : kwargs) :
  List.NoDup (map fst x) -> List.NoDup (map fst (alist_set a v x)).
Proof.
  induction x as [|[c u] r IH]; simpl; intros Hnd.
  - constructor; [intros []|constructor].
  - apply List.NoDup_cons_iff in Hnd as [Hc Hr].
    destruct (String.eqb_spec a c) as [->|Hac]; simpl.
    + now apply List.NoDup_cons_iff.
    + apply List.NoDup_cons_iff. split; [|now apply IH].
      rewrite alist_set_keys. intros [->|Hin]; [now destruct Hac|].
      contradiction.
Qed.

(** [{**{**k0, **e}, **k} = {**k0, **{**e, **k}}] for a dict [e]. *)
Lemma kw_merge_assoc (k0 e k : kwargs) :
  List.NoDup (map fst e) ->
  kw_merge (kw_merge k0 e) k = kw_merge k0 (kw_merge e k).
Proof.
  revert e. induction k as [|[a v] r IH]; intros e Hnd; [reflexivity|].
  change (kw_merge (kw_merge k0 e) ((a, v) :: r))
    with (kw_merge (alist_set a v (kw_merge k0 e)) r).
  change (kw_merge e ((a, v) :: r)) with (kw_merge (alist_set a v e) r).
  rewrite <- (kw_merge_set a v e k0 Hnd).
  apply IH. now apply alist_set_nodup.
Qed.

(** *** The trainer as it is used *)

(** X6: The callable [get_trainer] returns for a callable identifier and a
    configuration dict takes further arguments when it is called:
    positional arguments [args] and keywords [kw] reach the original
    callable as [args] and the configuration's entries overridden by
    [kw], in every store, also one in which the configuration dict has
    been changed since. *)
Theorem get_trainer_partial_call W fn l entries st p st' args kw h :
  callable W (heap st) fn = true ->
  heap st !! l = Some (HDict entries) ->
  List.NoDup (map fst entries) ->
  get_trainer W fn (VRef l) st = (Ret p, st') ->
  apply W p args kw h = apply W fn args (kw_merge entries kw) h.
Proof.
  intros Hcall Hcfg Hnd.
  assert (Hrun : get_trainer W fn (VRef l) st =
                 (p <- partial W fn entries ;; ret p)
                   (record st (EvPrint (VRef l)))).
  { unfold get_trainer, print. rewrite bind_log.
    destruct fn; try (simpl in Hcall; discriminate); simpl;
      now rewrite (bind_ret _ _ _ _ _
                     (kwargs_expand_nil l entries (record st _) Hcfg)). }
  rewrite Hrun. unfold bind, partial. simpl heap. rewrite Hcall.
  destruct fn as [| | | | | |o|func args0 kw0];
    try (simpl in Hcall; discriminate);
    unfold ret; intros [= <- _]; simpl; try reflexivity.
  now rewrite (kw_merge_assoc kw0 entries kw Hnd).
Qed.

Lemma get_trainer_partial_call_witness :
  apply Demo.world (VPartial (VObj "sgd") [] [("epochs", VInt 5)]) []
    [("epochs", VInt 9)] Demo.store0
  = (Ret (VInt 9), Demo.store0).
Proof.
  rewrite (get_trainer_partial_call Demo.world (VObj "sgd") 3%positive
             [("epochs", VInt 5)] Demo.state0
             (VPartial (VObj "sgd") [] [("epochs", VInt 5)])
             (record Demo.state0 (EvPrint (VRef 3%positive)))
             [] [("epochs", VInt 9)] Demo.store0).
  - reflexivity.
  - reflexivity.
  - reflexivity.
  - repeat constructor. intros [].
  - reflexivity.
Defined.

(** *** The load step of [get_model] *)

Lemma load_state_dict_trace W net sd strict st :
  trace (snd (load_state_dict W net sd strict st))
  = trace st ++ [EvLoad net sd strict].
Proof.
  unfold load_state_dict. rewrite bind_log.
  destruct net; try reflexivity.
  - simpl. destruct (heap st !! l) as [[?|params]|]; try reflexivity.
    unfold module_load. simpl. destruct sd; try reflexivity.
    destruct (heap st !! l0) as [[entries|?]|]; try reflexivity.
    now destruct (strict && key_mismatch params entries).
  - unfold extern. simpl. now destruct (w_load W o sd strict (heap st)).
Qed.

(** X7: When a state dict is given, [get_model] asks the object the builder
    returned in this run, whatever it is, to load it, once, after the
    builder's call, with the state dict and the strictness flag as it
    received them.  What the load returns is dropped: the result is the
    object, or the exception of the load. *)
Theorem get_model_load_step W fn cfg dl seed sd strict st net st1 :
  build_model W fn cfg dl seed sd strict st = (Ret net, st1) ->
  is_none sd = false ->
  get_model W fn cfg dl seed sd strict st =
    match load_state_dict W net sd strict st1 with
    | (Ret _, st2) => (Ret net, st2)
    | (Raise e, st2) => (Raise e, st2)
    end
  /\ trace (snd (get_model W fn cfg dl seed sd strict st))
     = trace st1 ++ [EvLoad net sd strict].
Proof.
  intros Hbuild Hsd.
  assert (Heq : get_model W fn cfg dl seed sd strict st =
    match load_state_dict W net sd strict st1 with
    | (Ret _, st2) => (Ret net, st2)
    | (Raise e, st2) => (Raise e, st2)
    end).
  { now rewrite get_model_build, Hbuild, Hsd. }
  split; [exact Heq|]. rewrite Heq.
  pose proof (load_state_dict_trace W net sd strict st1) as Ht.
  now destruct (load_state_dict W net sd strict st1) as [[v|e] st2].
Qed.

Lemma get_model_load_step_witness :
  trace (snd (get_model Demo.world (VStr "mlp") (VRef 2%positive)
                (VObj "train_loader") (VInt 3) (VRef 4%positive) false
                Demo.state0))
  = [EvCall (VObj "mlp") [VObj "train_loader"]
       [("seed", VInt 3); ("hidden", VInt 64)];
     EvLoad (VRef 5%positive) (VRef 4%positive) false].
Proof.
  pose proof (get_model_load_step Demo.world (VStr "mlp") (VRef 2%positive)
                (VObj "train_loader") (VInt 3) (VRef 4%positive) false
                Demo.state0 (VRef 5%positive)
                {| heap := <[5%positive := Demo.network]> Demo.store0;
                   trace := [EvCall (VObj "mlp") [VObj "train_loader"]
                               [("seed", VInt 3); ("hidden", VInt 64)]] |})
    as H.
  apply (proj2 (H ltac:(vm_compute; reflexivity) eq_refl)).
Defined.

(** X8: When, in a run with a state dict, the builder returns something
    without a [load_state_dict] attribute ([None], a number, a string, a
    tuple, a dict, a partial object), [get_model] raises [AttributeError]
    after the builder's call: the object is built and then lost. *)
Theorem get_model_built_object_cannot_load W fn cfg dl seed sd strict st
    net st1 :
  build_model W fn cfg dl seed sd strict st = (Ret net, st1) ->
  loadable (heap st1) net = false ->
  is_none sd = false ->
  get_model W fn cfg dl seed sd strict st
  = (Raise (AttributeError "load_state_dict"),
     record st1 (EvLoad net sd strict)).
Proof.
  intros Hbuild Hload Hsd.
  rewrite get_model_build, Hbuild, Hsd.
  unfold load_state_dict. rewrite bind_log.
  destruct net; try discriminate; try reflexivity.
  simpl in *. now destruct (heap st1 !! l) as [[?|?]|].
Qed.

Lemma get_model_built_object_cannot_load_witness :
  get_model Stub.world (VObj "builder") (VRef 2%positive) (VObj "train_loader")
    VNone (VRef 4%positive) true Demo.state0
  = (Raise (AttributeError "load_state_dict"),
     {| heap := Demo.store0;
        trace := [EvCall (VObj "builder") [VObj "train_loader"]
                    [("seed", VNone); ("hidden", VInt 64)];
                  EvLoad VNone (VRef 4%positive) true] |}).
Proof.
  apply (get_model_built_object_cannot_load Stub.world (VObj "builder")
           (VRef 2%positive) (VObj "train_loader") VNone (VRef 4%positive) true
           Demo.state0 VNone
           {| heap := Demo.store0;
              trace := [EvCall (VObj "builder") [VObj "train_loader"]
                          [("seed", VNone); ("hidden", VInt 64)]] |});
    reflexivity.
Defined.

(** *** The aggregate, step by step *)

(** X9: When the dataset function returns a dict that has no entry for
    [dl_key], [get_all_parts] raises [KeyError] for that key right after the
    subscript: the model identifier is not even resolved. *)
Theorem get_all_parts_missing_split W dataset_fn dataset_config model_fn
    model_config seed dl_key state_dict strict trainer_fn trainer_config
    st ld items st1 :
  get_data W dataset_fn dataset_config st = (Ret (VRef ld), st1) ->
  heap st1 !! ld = Some (HDict items) ->
  alist_lookup dl_key items = None ->
  get_all_parts W dataset_fn dataset_config model_fn model_config seed dl_key
    state_dict strict trainer_fn trainer_config st
  = (Raise (KeyError dl_key), record st1 (EvGetItem (VRef ld) dl_key)).
Proof.
  intros Hdata Hld Hkey. unfold get_all_parts.
  rewrite (bind_ret _ _ _ _ _ Hdata).
  apply bind_raise. unfold getitem. rewrite bind_log. simpl.
  now rewrite Hld, Hkey.
Qed.

Lemma get_all_parts_missing_split_witness :
  get_all_parts Demo.world (VStr "mnist") (VRef 1%positive) (VStr "mlp")
    (VRef 2%positive) VNone "test" VNone true VNone VNone Demo.state0
  = (Raise (KeyError "test"),
     {| heap := <[5%positive := Demo.loaders]> Demo.store0;
        trace := [EvCall (VObj "mnist") [] [("batch_size", VInt 32)];
                  EvGetItem (VRef 5%positive) "test"] |}).
Proof.
  pose proof (get_all_parts_missing_split Demo.world (VStr "mnist")
                (VRef 1%positive) (VStr "mlp") (VRef 2%positive) VNone "test"
                VNone true VNone VNone Demo.state0 5%positive
                [("train", VObj "train_loader");
                 ("validation", VObj "val_loader")]
                {| heap := <[5%positive := Demo.loaders]> Demo.store0;
                   trace := [EvCall (VObj "mnist") []
                               [("batch_size", VInt 32)]] |}) as H.
  apply (H ltac:(vm_compute; reflexivity) eq_refl eq_refl).
Defined.

(** X10: Without a trainer identifier [get_all_parts] does not run the trainer
    step at all: it prints nothing, and its outcome is the same whatever
    [trainer_config] is. *)
Theorem get_all_parts_without_trainer W dataset_fn dataset_config model_fn
    model_config seed dl_key state_dict strict trainer_config st :
  emits (fun ev => is_print ev = false)
    (get_all_parts W dataset_fn dataset_config model_fn model_config seed
       dl_key state_dict strict VNone trainer_config) st
  /\ forall trainer_config',
       get_all_parts W dataset_fn dataset_config model_fn model_config seed
         dl_key state_dict strict VNone trainer_config' st
       = get_all_parts W dataset_fn dataset_config model_fn model_config seed
           dl_key state_dict strict VNone trainer_config st.
Proof.
  split; [|reflexivity]. unfold get_all_parts.
  apply emits_bind; [now apply emits_get_data|]. intros dls st1 _.
  apply emits_bind; [now apply emits_getitem|]. intros dl st2 _.
  apply emits_bind; [now apply emits_get_model|]. intros model st3 _.
  apply emits_ret.
Qed.

Lemma get_trainer_string_none W s st :
  exists e st', get_trainer W (VStr s) VNone st = (Raise e, st').
Proof.
  unfold get_trainer, print. rewrite bind_log. unfold bind at 1.
  destruct (resolve W "training." _ s _) as [[f|e] st1]; eauto.
Qed.

(** X11: With a string trainer identifier and no trainer configuration,
    [get_all_parts] raises in every world and store, whatever the other
    arguments are: when the data and the model steps succeed, the trainer
    step fails, and what they built is not returned. *)
Theorem get_all_parts_string_trainer_needs_config W dataset_fn dataset_config
    model_fn model_config seed dl_key state_dict strict s st :
  exists e st',
    get_all_parts W dataset_fn dataset_config model_fn model_config seed
      dl_key state_dict strict (VStr s) VNone st = (Raise e, st').
Proof.
  unfold get_all_parts, bind.
  destruct (get_data _ _ _ st) as [[dls|e] st1]; [|eauto].
  destruct (getitem _ _ _ st1) as [[dl|e] st2]; [|eauto].
  destruct (get_model _ _ _ _ _ _ _ st2) as [[model|e] st3]; [|eauto].
  simpl. destruct (get_trainer_string_none W s st3) as (e & st4 & ->). eauto.
Qed.

(** X12: With a callable trainer identifier and no trainer configuration, the
    triple [get_all_parts] returns has [None] in the place of the trainer:
    the callable that was passed in is not handed back. *)
Theorem get_all_parts_callable_trainer_without_config W dataset_fn
    dataset_config model_fn model_config seed dl_key state_dict strict
    trainer_fn st dataloaders st1 dl st2 model st3 :
  get_data W dataset_fn dataset_config st = (Ret dataloaders, st1) ->
  getitem W dataloaders dl_key st1 = (Ret dl, st2) ->
  get_model W model_fn model_config dl seed state_dict strict st2
    = (Ret model, st3) ->
  callable W (heap st3) trainer_fn = true ->
  get_all_parts W dataset_fn dataset_config model_fn model_config seed dl_key
    state_dict strict trainer_fn VNone st
  = (Ret (VTuple [dataloaders; model; VNone]), record st3 (EvPrint VNone)).
Proof.
  intros Hdata Hitem Hmodel Hcall. unfold get_all_parts.
  rewrite (bind_ret _ _ _ _ _ Hdata), (bind_ret _ _ _ _ _ Hitem),
    (bind_ret _ _ _ _ _ Hmodel).
  destruct trainer_fn; try (simpl in Hcall; discriminate); reflexivity.
Qed.

Lemma get_all_parts_callable_trainer_without_config_witness :
  fst (get_all_parts Demo.world (VStr "mnist") (VRef 1%positive) (VStr "mlp")
         (VRef 2%positive) VNone "train" VNone true (VObj "sgd") VNone
         Demo.state0)
  = Ret (VTuple [VRef 5%positive; VRef 6%positive; VNone]).
Proof.
  pose proof (get_all_parts_callable_trainer_without_config Demo.world
                (VStr "mnist") (VRef 1%positive) (VStr "mlp") (VRef 2%positive)
                VNone "train" VNone true (VObj "sgd") Demo.state0
                (VRef 5%positive)
                (snd (get_data Demo.world (VStr "mnist") (VRef 1%positive)
                        Demo.state0))
                (VObj "train_loader")
                (snd (getitem Demo.world (VRef 5%positive) "train"
                        (snd (get_data Demo.world (VStr "mnist")
                                (VRef 1%positive) Demo.state0))))
                (VRef 6%positive)
                (snd (get_model Demo.world (VStr "mlp") (VRef 2%positive)
                        (VObj "train_loader") VNone VNone true
                        (snd (getitem Demo.world (VRef 5%positive) "train"
                                (snd (get_data Demo.world (VStr "mnist")
                                        (VRef 1%positive) Demo.state0)))))))
    as H.
  rewrite (H ltac:(vm_compute; reflexivity) ltac:(vm_compute; reflexivity)
             ltac:(vm_compute; reflexivity) ltac:(vm_compute; reflexivity)).
  reflexivity.
Defined.



(** *** Identifiers that are not strings *)

Lemma apply_without_names W fn :
  forall args kw h,
    apply (Stub.without_names W) fn args kw h = apply W fn args kw h.
Proof. induction fn; intros args' kw h; simpl; auto. Qed.

Lemma invoke_without_names W fn args kw st :
  invoke (Stub.without_names W) fn args kw st = invoke W fn args kw st.
Proof. now rewrite !invoke_run, apply_without_names. Qed.

Lemma load_state_dict_without_names W net sd strict st :
  load_state_dict (Stub.without_names W) net sd strict st
  = load_state_dict W net sd strict st.
Proof. now destruct net. Qed.

(** X14: For an identifier that is not a string no name resolution is
    performed: [get_data], [get_model] and [get_trainer] do the same in a
    world whose namespaces are empty and whose importer and [eval] always
    fail. *)
Theorem no_resolution_without_string W fn cfg dl seed sd strict st :
  (forall s, fn <> VStr s) ->
  get_data (Stub.without_names W) fn cfg st = get_data W fn cfg st
  /\ get_model (Stub.without_names W) fn cfg dl seed sd strict st
     = get_model W fn cfg dl seed sd strict st
  /\ get_trainer (Stub.without_names W) fn cfg st = get_trainer W fn cfg st.
Proof.
  intros Hstr.
  assert (Hd : forall f, (kw <- kwargs_expand [] cfg ;;
                          invoke (Stub.without_names W) f [] kw) st
                       = (kw <- kwargs_expand [] cfg ;; invoke W f [] kw) st).
  { intros f. unfold bind.
    destruct (kwargs_expand [] cfg st) as [[kw|e] st1]; [|reflexivity].
    apply invoke_without_names. }
  assert (Hm : forall f,
             (kw <- kwargs_expand [("seed", seed)] cfg ;;
              net <- invoke (Stub.without_names W) f [dl] kw ;;
              (if is_none sd then ret VNone
               else load_state_dict (Stub.without_names W) net sd strict) ;;;
              ret net) st
           = (kw <- kwargs_expand [("seed", seed)] cfg ;;
              net <- invoke W f [dl] kw ;;
              (if is_none sd then ret VNone
               else load_state_dict W net sd strict) ;;;
              ret net) st).
  { intros f. unfold bind.
    destruct (kwargs_expand _ cfg st) as [[kw|e] st1]; [|reflexivity].
    rewrite invoke_without_names.
    destruct (invoke W f [dl] kw st1) as [[net|e] st2]; [|reflexivity].
    destruct (is_none sd); [reflexivity|].
    now rewrite load_state_dict_without_names. }
  unfold get_data, get_model, get_trainer.
  destruct fn; try (now destruct (Hstr s));
    (split; [apply Hd|split; [apply Hm|reflexivity]]).
Qed.

Lemma no_resolution_without_string_witness :
  get_data (Stub.without_names Demo.world) (VObj "mnist") (VRef 1%positive)
    Demo.state0
  = get_data Demo.world (VStr "mnist") (VRef 1%positive) Demo.state0.
Proof.
  rewrite (proj1 (no_resolution_without_string Demo.world (VObj "mnist")
                    (VRef 1%positive) VNone VNone VNone true Demo.state0
                    ltac:(discriminate))).
  vm_compute. reflexivity.
Defined.



(** ** Runs on the concrete world *)

Example run_with_trainer :
  observe (get_all_parts Demo.world (VStr "mnist") (VRef 1%positive)
             (VStr "mlp") (VRef 2%positive) (VInt 3) "train"
             (VRef 4%positive) false (VStr "sgd") (VRef 3%positive)
             Demo.state0)
  = (Ret (VTuple [VRef 5%positive; VRef 6%positive; VInt 5]),
     [EvCall (VObj "mnist") [] [("batch_size", VInt 32)];
      EvGetItem (VRef 5%positive) "train";
      EvCall (VObj "mlp") [VObj "train_loader"]
        [("seed", VInt 3); ("hidden", VInt 64)];
      EvLoad (VRef 6%positive) (VRef 4%positive) false;
      EvPrint (VRef 3%positive);
      EvCall (VObj "sgd") [] [("epochs", VInt 5)]]).
Proof. vm_compute. reflexivity. Qed.

(** A split the loaders do not have: the [KeyError] ends the aggregate before
    the model step. *)
Example run_missing_split :
  observe (get_all_parts Demo.world (VStr "mnist") (VRef 1%positive)
             (VStr "mlp") (VRef 2%positive) VNone "test" VNone true
             VNone VNone Demo.state0)
  = (Raise (KeyError "test"),
     [EvCall (VObj "mnist") [] [("batch_size", VInt 32)];
      EvGetItem (VRef 5%positive) "test"]).
Proof. vm_compute. reflexivity. Qed.

(** A strict load of a blob with other names: the error ends the aggregate
    before the trainer step. *)
Example run_strict_mismatch :
  observe (get_all_parts Demo.world (VStr "mnist") (VRef 1%positive)
             (VStr "mlp") (VRef 2%positive) VNone "train"
             (VRef 4%positive) true (VStr "sgd") (VRef 3%positive)
             Demo.state0)
  = (Raise (LoadError ["bias"] ["extra"]),
     [EvCall (VObj "mnist") [] [("batch_size", VInt 32)];
      EvGetItem (VRef 5%positive) "train";
      EvCall (VObj "mlp") [VObj "train_loader"]
        [("seed", VNone); ("hidden", VInt 64)];
      EvLoad (VRef 6%positive) (VRef 4%positive) true]).
Proof. vm_compute. reflexivity. Qed.

(** A configuration that binds [seed] itself: the keyword clash is raised
    before the builder is called. *)
Example run_seed_clash :
  observe (get_model Demo.world (VStr "mlp") (VRef 9%positive)
             (VObj "train_loader") (VInt 3) VNone true
             {| heap := <[9%positive := HDict [("seed", VInt 1)]]> Demo.store0;
                trace := [] |})
  = (Raise TypeError, []).
Proof. vm_compute. reflexivity. Qed.

Example run_trainer_string_without_config :
  observe (get_trainer Demo.world (VStr "sgd") VNone Demo.state0)
  = (Raise TypeError, [EvPrint VNone]).
Proof. vm_compute. reflexivity. Qed.

Example run_trainer_callable_without_config :
  observe (get_trainer Demo.world (VObj "sgd") VNone Demo.state0)
  = (Ret VNone, [EvPrint VNone]).
Proof. vm_compute. reflexivity. Qed.

(** A partial of a partial keeps one function and merges the keywords. *)
Example run_partial_of_partial :
  observe (get_trainer Demo.world
             (VPartial (VObj "sgd") [] [("epochs", VInt 1)])
             (VRef 3%positive) Demo.state0)
  = (Ret (VPartial (VObj "sgd") [] [("epochs", VInt 5)]),
     [EvPrint (VRef 3%positive)]).
Proof. vm_compute. reflexivity. Qed.

(** An identifier that is an expression is evaluated with the locals of
    [get_model] in sight: the same identifier resolves to one builder
    without a state dict and to another with one. *)
Example run_identifier_reads_locals :
  observe (get_model Stub.peeking (VStr Stub.conditional) (VRef 2%positive)
             (VObj "train_loader") VNone VNone true Demo.state0)
  = (Ret VNone,
     [EvEval "models.mlp if state_dict is None else dict";
      EvCall (VObj "mlp") [VObj "train_loader"]
        [("seed", VNone); ("hidden", VInt 64)]])
  /\ observe (get_model Stub.peeking (VStr Stub.conditional) (VRef 2%positive)
                (VObj "train_loader") VNone (VRef 4%positive) true Demo.state0)
  = (Raise (AttributeError "load_state_dict"),
     [EvEval "models.mlp if state_dict is None else dict";
      EvCall (VObj "dict") [VObj "train_loader"]
        [("seed", VNone); ("hidden", VInt 64)];
      EvLoad VNone (VRef 4%positive) true]).
Proof. split; vm_compute; reflexivity. Qed.
